(** * RAPL package power-limit codec: a shallow embedding

    The development embeds the two programs of the repository,

    - [agents/apply_pl.py]  (module [ApplyPl]): the one-shot "Chill" preset,
    - [cpu_pl_gui.py]       (module [Gui]):     the preset selector,

    over one model of the machine they talk to: the model-specific
    registers reached through the [rdmsr] / [wrmsr] tools.

    Numbers.  Python integers are unbounded, so they are [Z] and the bit
    operators are [Z.land], [Z.lor], [Z.lnot], [Z.shiftl], [Z.shiftr]
    (two's complement on negative numbers, as in Python).  Python floats
    are modelled by the rationals [Q]: every unit the programs decode is a
    power of two [2^-p] with [p <= 15], and scaling a finite double by
    such a power of two is exact as long as the result is finite, so the
    quotients and products computed by the programs are the rational
    ones.  Infinities and NaN are not modelled: where a statement
    depends on the quotient of a wattage the programs do not fix, it
    assumes that the float quotient is finite. *)

From Stdlib Require Import ZArith QArith Qround Qabs Qpower Lia Lqa String List.
From stdpp Require Import base option gmap.
Import ListNotations.

Local Open Scope Z_scope.

(** ** Python builtins used by the programs *)

Module Py.

(** Exceptions the programs can meet: a failed [rdmsr] / [wrmsr]
    invocation, and a float division by zero.  [CalledProcessError]
    stands for whatever a failed invocation raises: the tool exiting
    with an error, the executable missing (FileNotFoundError), an output
    that is not hexadecimal (ValueError).  The programs never tell these
    apart, and no property below depends on which of them it was. *)
Inductive exn : Type :=
| CalledProcessError
| ZeroDivisionError.

Inductive result (A : Type) : Type :=
| Ok (a : A)
| Raise (e : exn).
Arguments Ok {A} a.
Arguments Raise {A} e.

Definition rbind {A B : Type} (r : result A) (k : A -> result B) : result B :=
  match r with
  | Ok a => k a
  | Raise e => Raise e
  end.

(** [x / y] on floats.  The rational quotient is the float quotient when
    [y] is a power of two and the quotient is finite (below 2^1024 in
    magnitude); the hypothesis [finite_quotient] says the latter where a
    statement needs it. *)
Definition truediv (x y : Q) : result Q :=
  if Qeq_bool y 0 then Raise ZeroDivisionError else Ok (x / y)%Q.

(** [x * y] on floats. *)
Definition mul (x y : Q) : Q := (x * y)%Q.

(** [float(n)] for an integer [n]. *)
Definition float (n : Z) : Q := inject_Z n.

(** [int(x)] on a float: truncation toward zero. *)
Definition int (x : Q) : Z := Z.quot (Qnum x) (Zpos (Qden x)).

(** [round(x)] on a float: the nearest integer, ties to the even one. *)
Definition round (x : Q) : Z :=
  let f := Qfloor x in
  match (x - inject_Z f ?= 1 # 2)%Q with
  | Lt => f
  | Gt => f + 1
  | Eq => if Z.even f then f else f + 1
  end.

End Py.

Import Py.

Notation "'let?' x ':=' r 'in' k" := (rbind r (fun x => k))
  (at level 10, x name, r at level 100, k at level 200).

(** ** The machine: registers behind the rdmsr / wrmsr gateway *)

Inductive gw_op : Type :=
| Read (msr : Z)
| Write (msr : Z) (value : Z).

(** One gateway call as it was issued, and whether the tool succeeded. *)
Record gw_call : Type := Call { call_op : gw_op; call_ok : bool }.

Inductive ui_event : Type :=
| Stdout (line : string)
| ErrorBox (title : string) (cause : exn)
| CurrentLabel (pl1_w pl2_w tau_seconds : Q).

(** [regs]: the registers the package supports and their 64-bit contents.
    [faults]: the outcome of the coming tool invocations, one flag per
    call ([true]: the subprocess exits with an error); when the list is
    exhausted the tools work.
    [trace]: the gateway calls issued so far, oldest first.
    [ui]: what the program showed, oldest first. *)
Record hw : Type := Hw {
  regs : gmap Z Z;
  faults : list bool;
  trace : list gw_call;
  ui : list ui_event
}.

Definition M (A : Type) : Type := hw -> result A * hw.

Definition ret {A : Type} (a : A) : M A := fun s => (Ok a, s).

Definition bind {A B : Type} (m : M A) (k : A -> M B) : M B :=
  fun s =>
    match m s with
    | (Ok a, s') => k a s'
    | (Raise e, s') => (Raise e, s')
    end.

Definition lift {A : Type} (r : result A) : M A := fun s => (r, s).

(** [try: body  except Exception as e: handler e] *)
Definition try_except {A : Type} (body : M A) (handler : exn -> M A) : M A :=
  fun s =>
    match body s with
    | (Ok a, s') => (Ok a, s')
    | (Raise e, s') => handler e s'
    end.

Notation "'let*' x ':=' m 'in' k" := (bind m (fun x => k))
  (at level 10, x name, m at level 100, k at level 200).
Notation "'do' m 'then' k" := (bind m (fun _ => k))
  (at level 10, m at level 100, k at level 200).

Definition emit (e : ui_event) : M unit :=
  fun s => (Ok tt, Hw (regs s) (faults s) (trace s) (ui s ++ [e])).

(** The flag of the coming tool invocation, and the schedule after it. *)
Definition next_fault (fs : list bool) : bool * list bool :=
  match fs with
  | [] => (false, [])
  | b :: fs' => (b, fs')
  end.

(** The gateway: a read of a register the package lacks fails, like any
    invocation that is scheduled to fail; a write that succeeds is
    visible at once. *)
Definition gw_read (msr : Z) : M Z :=
  fun s =>
    let (bad, fs) := next_fault (faults s) in
    match (if bad then None else regs s !! msr) with
    | Some v =>
        (Ok v, Hw (regs s) fs (trace s ++ [Call (Read msr) true]) (ui s))
    | None =>
        (Raise CalledProcessError,
         Hw (regs s) fs (trace s ++ [Call (Read msr) false]) (ui s))
    end.

Definition gw_write (msr value : Z) : M unit :=
  fun s =>
    let (bad, fs) := next_fault (faults s) in
    match (if bad then None else regs s !! msr) with
    | Some _ =>
        (Ok tt, Hw (<[msr := value]> (regs s)) fs
                   (trace s ++ [Call (Write msr value) true]) (ui s))
    | None =>
        (Raise CalledProcessError,
         Hw (regs s) fs (trace s ++ [Call (Write msr value) false]) (ui s))
    end.

(** ** agents/apply_pl.py *)

Module ApplyPl.

Definition MSR_RAPL_POWER_UNIT : Z := 0x606.
Definition MSR_PKG_POWER_LIMIT : Z := 0x610.

Definition rdmsr (msr : Z) : M Z := gw_read msr.
Definition wrmsr (msr value : Z) : M unit := gw_write msr value.

Definition decode_units : M (Q * Q) :=
  let* units := rdmsr MSR_RAPL_POWER_UNIT in
  let pu := Z.land units 0x0F in
  let tu := Z.land (Z.shiftr units 16) 0x0F in
  let* power_unit := lift (truediv 1 (float (Z.shiftl 1 pu))) in
  let* time_unit := lift (truediv 1 (float (Z.shiftl 1 tu))) in
  ret (power_unit, time_unit).

Definition encode_power_field (raw : Z) (watts power_unit : Q) : result Z :=
  let? q := truediv watts power_unit in
  let raw_power := int q in
  let raw := Z.land raw (Z.lnot 0x7FFF) in
  let raw := Z.lor raw (Z.land raw_power 0x7FFF) in
  Ok raw.

Definition apply_chill_profile : M unit :=
  let* units := decode_units in
  let power_unit := fst units in
  let* pkg := rdmsr MSR_PKG_POWER_LIMIT in
  let lo := Z.land pkg 0xFFFFFFFF in
  let hi := Z.land (Z.shiftr pkg 32) 0xFFFFFFFF in
  let* lo := lift (encode_power_field lo 20 power_unit) in
  let* hi := lift (encode_power_field hi 28 power_unit) in
  let new_pkg := Z.lor (Z.shiftl hi 32) lo in
  do wrmsr MSR_PKG_POWER_LIMIT new_pkg then
  emit (Stdout "T2 PL preset applied: Chill (PL1=20 W, PL2=28 W)").

Definition main : M unit := apply_chill_profile.

End ApplyPl.

(** ** cpu_pl_gui.py *)

Module Gui.

Definition run_rdmsr (msr : Z) : M Z := gw_read msr.
Definition run_wrmsr (msr value_int : Z) : M unit := gw_write msr value_int.

Definition decode_power_time_units : M (Q * Q) :=
  let* val := run_rdmsr 0x606 in
  let power_bits := Z.land val 0xF in
  let time_bits := Z.land (Z.shiftr val 4) 0xF in
  let* power_unit := lift (truediv 1 (float (2 ^ power_bits))) in
  let* time_unit := lift (truediv 1 (float (2 ^ time_bits))) in
  ret (power_unit, time_unit).

Definition decode_pls : M (Q * Q * Q * Z) :=
  let* units := decode_power_time_units in
  let power_unit := fst units in
  let time_unit := snd units in
  let* val := run_rdmsr 0x610 in
  let lower := Z.land val 0xFFFFFFFF in
  let upper := Z.land (Z.shiftr val 32) 0xFFFFFFFF in
  let pl1_raw := Z.land lower 0x7FFF in
  let pl2_raw := Z.land upper 0x7FFF in
  let tau_raw := Z.land (Z.shiftr lower 17) 0x7F in
  let tau_seconds := mul time_unit (float (2 ^ tau_raw)) in
  let pl1_w := mul (float pl1_raw) power_unit in
  let pl2_w := mul (float pl2_raw) power_unit in
  ret (pl1_w, pl2_w, tau_seconds, val).

Definition encode_pls (pl1_w pl2_w : Q) (preserve_tau_from_val : Z) : M Z :=
  let* units := decode_power_time_units in
  let power_unit := fst units in
  let old := preserve_tau_from_val in
  let lower_old := Z.land old 0xFFFFFFFF in
  let upper_old := Z.land (Z.shiftr old 32) 0xFFFFFFFF in
  let* q1 := lift (truediv pl1_w power_unit) in
  let pl1_raw := round q1 in
  let* q2 := lift (truediv pl2_w power_unit) in
  let pl2_raw := round q2 in
  let lower_new := Z.lor (Z.land lower_old (Z.lnot 0x7FFF)) (Z.land pl1_raw 0x7FFF) in
  let upper_new := Z.lor (Z.land upper_old (Z.lnot 0x7FFF)) (Z.land pl2_raw 0x7FFF) in
  ret (Z.lor (Z.shiftl upper_new 32) lower_new).

Definition PROFILES : list (string * Q * Q) :=
  [ ("Eco"%string,    12,      20);
    ("Chill"%string,  20,      28);
    ("Sport"%string,  23,      32);
    ("Full"%string,   55 # 2,  40);
    ("Stupid"%string, 30,      45) ]%Q.

Definition update_current_label : M unit :=
  try_except
    (let* r := decode_pls in
     let '(pl1, pl2, tau, _) := r in
     emit (CurrentLabel pl1 pl2 tau))
    (fun e => emit (ErrorBox "Error reading PLs" e)).

(** Lines 147-149 of [apply_profile]: the read-modify-write of register
    0x610 for one pair of wattages. *)
Definition apply_profile_rmw (pl1 pl2 : Q) : M unit :=
  let* r := decode_pls in
  let old_val := snd r in
  let* new_val := encode_pls pl1 pl2 old_val in
  run_wrmsr 0x610 new_val.

(** [name] is what [self.profile_var.get()] returns. *)
Definition apply_profile (name : string) : M unit :=
  let prof := find (fun p => String.eqb (fst (fst p)) name) PROFILES in
  match prof with
  | None => ret tt
  | Some (_, pl1, pl2) =>
      try_except
        (do apply_profile_rmw pl1 pl2 then
         update_current_label)
        (fun e => emit (ErrorBox "Error applying profile" e))
  end.

End Gui.

(** ** Notions used in the statements and proofs *)

Section Notions.

Local Open Scope Q_scope.

(** The unit scale the two decoders compute from the unit register [u]. *)
Definition power_unit_of (u : Z) : Q := 1 / float (2 ^ Z.land u 0xF).
Definition time_unit_16 (u : Z) : Q := 1 / float (2 ^ Z.land (Z.shiftr u 16) 0xF).
Definition time_unit_4 (u : Z) : Q := 1 / float (2 ^ Z.land (Z.shiftr u 4) 0xF).

(** The register value both programs write: each 32-bit half of [old]
    with its bits 0-14 replaced by the low 15 bits of [r1], [r2]. *)
Definition patched (half r : Z) : Z :=
  Z.lor (Z.land half (Z.lnot 0x7FFF)) (Z.land r 0x7FFF).
Definition rmw (old r1 r2 : Z) : Z :=
  Z.lor (Z.shiftl (patched (Z.land (Z.shiftr old 32) 0xFFFFFFFF) r2) 32)
        (patched (Z.land old 0xFFFFFFFF) r1).

(** The machine after some more gateway calls. *)
Definition moved (s : hw) (r : gmap Z Z) (fs : list bool)
    (calls : list gw_call) : hw :=
  Hw r fs (trace s ++ calls) (ui s).

Definition shown (s : hw) (e : ui_event) : hw :=
  Hw (regs s) (faults s) (trace s) (ui s ++ [e]).

(** What a tool invocation on [msr] meets: [None] when it fails. *)
Definition probe (s : hw) (msr : Z) : option Z :=
  if fst (next_fault (faults s)) then None else regs s !! msr.

Definition rest (s : hw) : list bool := snd (next_fault (faults s)).

(** What [decode_pls] returns for unit register [u] and limit register [v]. *)
Definition decoded (u v : Z) : Q * Q * Q * Z :=
  (float (Z.land (Z.land v 0xFFFFFFFF) 0x7FFF) * power_unit_of u,
   float (Z.land (Z.land (Z.shiftr v 32) 0xFFFFFFFF) 0x7FFF) * power_unit_of u,
   time_unit_4 u * float (2 ^ Z.land (Z.shiftr (Z.land v 0xFFFFFFFF) 17) 0x7F),
   v).

Definition chill_line : string :=
  "T2 PL preset applied: Chill (PL1=20 W, PL2=28 W)".

(** A machine of the reference hardware: unit register 0xA0E03 (power
    exponent 3), limit register with enable, clamp, time-window and lock
    bits set. *)
Definition reference_hw : hw :=
  Hw (<[0x606%Z := 0xA0E03%Z]> (<[0x610%Z := 0x8000000000DD8000%Z]> ∅)) [] [] [].

(** Register fields as the register layout names them: bits [lo]..[hi]
    of [x], both ends included, and the two 32-bit halves. *)
Definition bits_of (x lo hi : Z) : Z := ((x / 2 ^ lo) mod 2 ^ (hi - lo + 1))%Z.
Definition lower_half (x : Z) : Z := (x mod 2 ^ 32)%Z.
Definition upper_half (x : Z) : Z := ((x / 2 ^ 32) mod 2 ^ 32)%Z.

(** The sixteen values of a 4-bit exponent. *)
Definition nibbles : list Z := map Z.of_nat (seq 0 16).

(** A machine whose power exponent is 11, and one whose exponent is 10. *)
Definition fine_grained_hw : hw :=
  Hw (<[0x606%Z := 0xA0E0B%Z]> (<[0x610%Z := 0x8000000000DD8000%Z]> ∅)) [] [] [].
Definition fine_grained_hw_10 : hw :=
  Hw (<[0x606%Z := 0xA0E0A%Z]> (<[0x610%Z := 0x8000000000DD8000%Z]> ∅)) [] [] [].

(** The apply operations of the repository: the preset of apply_pl.py,
    the selector's read-modify-write for a pair of wattages, and the
    selector's handler for a profile name, label refresh included. *)
Inductive apply_op : Type :=
| ChillProfile
| SelectorProfile (pl1 pl2 : Q)
| SelectorHandler (name : string).

Definition run_apply (op : apply_op) : M unit :=
  match op with
  | ChillProfile => ApplyPl.apply_chill_profile
  | SelectorProfile pl1 pl2 => Gui.apply_profile_rmw pl1 pl2
  | SelectorHandler name => Gui.apply_profile name
  end.

(** How an apply that gave up shows it: the first two raise; the
    handler, which catches every exception, ends with its error box. *)
Definition gave_up (op : apply_op) (s : hw) (out : result unit * hw) : Prop :=
  match op with
  | SelectorHandler _ =>
      exists cause,
        ui (snd out) = ui s ++ [ErrorBox "Error applying profile" cause]
  | _ => exists e, fst out = Raise e
  end.

(** A read failed while no write had been issued: scanning the calls in
    the order they were issued, a failed read comes before any write. *)
Fixpoint read_failed_first (t : list gw_call) : bool :=
  match t with
  | [] => false
  | Call (Read _) false :: _ => true
  | Call (Read _) true :: t' => read_failed_first t'
  | Call (Write _ _) _ :: _ => false
  end.

(** The float quotient [watts / power_unit] is finite. *)
Definition finite_quotient (watts power_unit : Q) : Prop :=
  Qabs (watts / power_unit) < inject_Z (2 ^ 1024).

Definition is_write (c : gw_call) : bool :=
  match call_op c with
  | Write _ _ => true
  | Read _ => false
  end.

Definition writes_issued (t : list gw_call) : nat :=
  length (filter is_write t).

(** A machine on which the second tool invocation fails. *)
Definition flaky_hw : hw :=
  Hw (<[0x606%Z := 0xA0E03%Z]> (<[0x610%Z := 0x8000000000DD8000%Z]> ∅))
     [false; true] [] [].

(** What the programs are meant to do at the gateway: read the unit
    register or the limit register, write a 64-bit value to the limit
    register. *)
Definition call_allowed (c : gw_call) : Prop :=
  match call_op c with
  | Read msr => msr = 0x606%Z \/ msr = 0x610%Z
  | Write msr value => msr = 0x610%Z /\ (0 <= value < 2 ^ 64)%Z
  end.

(** One program run after another, the second on the machine the first
    has left, whatever the first returned. *)
Definition and_then {A B : Type} (m : M A) (k : M B) : M B :=
  fun s => k (snd (m s)).

End Notions.

(** ** Tactics *)

(** Linear arithmetic over [Q] with the injected integers taken as
    unknowns. *)
Ltac qlra :=
  repeat match goal with
         | |- context [inject_Z ?z] =>
             let q := fresh "q" in set (q := inject_Z z) in *; clearbody q
         | H : context [inject_Z ?z] |- _ =>
             let q := fresh "q" in set (q := inject_Z z) in *; clearbody q
         end;
  lra.

(** A list of calls that holds no failed read. *)
Ltac failed_read_absurd H :=
  repeat (destruct H as [H | H]; [discriminate H |]); destruct H.

(** ** Bit-level facts about the 15-bit limit field *)

Section LimitField.

Lemma mask15_ones : 0x7FFF = Z.ones 15.
Proof. reflexivity. Qed.

Lemma mask32_ones : 0xFFFFFFFF = Z.ones 32.
Proof. reflexivity. Qed.

(** Clearing bits 0-14 of [x] and or-ing in the low 15 bits of [r]. *)
Lemma patch_testbit (x r i : Z) :
  0 <= i ->
  Z.testbit (Z.lor (Z.land x (Z.lnot 0x7FFF)) (Z.land r 0x7FFF)) i =
  if i <? 15 then Z.testbit r i else Z.testbit x i.
Proof.
  intros Hi.
  rewrite Z.lor_spec, !Z.land_spec, Z.lnot_spec by assumption.
  rewrite mask15_ones, Z.testbit_ones_nonneg by lia.
  destruct (i <? 15); simpl.
  - now rewrite Bool.andb_false_r, Bool.andb_true_r.
  - now rewrite Bool.andb_true_r, Bool.andb_false_r, Bool.orb_false_r.
Qed.

Lemma patch_low (x r : Z) :
  Z.land (Z.lor (Z.land x (Z.lnot 0x7FFF)) (Z.land r 0x7FFF)) 0x7FFF =
  r mod 2 ^ 15.
Proof.
  rewrite <- (Z.land_ones r 15) by lia. rewrite <- mask15_ones.
  apply Z.bits_inj'. intros i Hi.
  rewrite Z.land_spec, patch_testbit by assumption.
  rewrite Z.land_spec, mask15_ones, Z.testbit_ones_nonneg by lia.
  destruct (i <? 15); [reflexivity | now rewrite !Bool.andb_false_r].
Qed.

Lemma testbit_high_32 (x i : Z) :
  0 <= x < 2 ^ 32 -> 32 <= i -> Z.testbit x i = false.
Proof.
  intros Hx Hi. rewrite <- (Z.mod_small x (2 ^ 32)) by assumption.
  apply Z.mod_pow2_bits_high. lia.
Qed.

Lemma patch_range (x r : Z) :
  0 <= x < 2 ^ 32 ->
  0 <= Z.lor (Z.land x (Z.lnot 0x7FFF)) (Z.land r 0x7FFF) < 2 ^ 32.
Proof.
  intros Hx.
  set (y := Z.lor _ _).
  assert (E : y = y mod 2 ^ 32).
  { rewrite <- Z.land_ones by lia. apply Z.bits_inj'. intros i Hi.
    unfold y. rewrite Z.land_spec, patch_testbit by assumption.
    rewrite Z.testbit_ones_nonneg by lia.
    destruct (Z.ltb_spec i 15), (Z.ltb_spec i 32);
      rewrite ?Bool.andb_true_r, ?Bool.andb_false_r; try reflexivity; try lia.
    apply testbit_high_32; assumption. }
  rewrite E. apply Z.mod_pos_bound. lia.
Qed.

(** Gluing two 32-bit halves and taking them apart again. *)
Lemma glue_testbit (hi lo i : Z) :
  0 <= lo < 2 ^ 32 -> 0 <= i ->
  Z.testbit (Z.lor (Z.shiftl hi 32) lo) i =
  if i <? 32 then Z.testbit lo i else Z.testbit hi (i - 32).
Proof.
  intros Hlo Hi. rewrite Z.lor_spec.
  destruct (Z.ltb_spec i 32).
  - rewrite Z.shiftl_spec_low by lia. reflexivity.
  - rewrite Z.shiftl_spec by lia.
    rewrite (testbit_high_32 lo i) by assumption.
    apply Bool.orb_false_r.
Qed.

Lemma glue_lower (hi lo : Z) :
  0 <= lo < 2 ^ 32 ->
  Z.land (Z.lor (Z.shiftl hi 32) lo) 0xFFFFFFFF = lo.
Proof.
  intros Hlo. apply Z.bits_inj'. intros i Hi.
  rewrite Z.land_spec, glue_testbit, mask32_ones, Z.testbit_ones_nonneg by lia.
  destruct (Z.ltb_spec i 32).
  - apply Bool.andb_true_r.
  - rewrite Bool.andb_false_r. symmetry. apply testbit_high_32; assumption.
Qed.

Lemma glue_upper (hi lo : Z) :
  0 <= lo < 2 ^ 32 -> 0 <= hi < 2 ^ 32 ->
  Z.land (Z.shiftr (Z.lor (Z.shiftl hi 32) lo) 32) 0xFFFFFFFF = hi.
Proof.
  intros Hlo Hhi. apply Z.bits_inj'. intros i Hi.
  rewrite Z.land_spec, Z.shiftr_spec, glue_testbit by lia.
  rewrite mask32_ones, Z.testbit_ones_nonneg by lia.
  replace (i + 32 <? 32) with false by (symmetry; apply Z.ltb_ge; lia).
  replace (i + 32 - 32) with i by lia.
  destruct (Z.ltb_spec i 32).
  - apply Bool.andb_true_r.
  - rewrite Bool.andb_false_r. symmetry. apply testbit_high_32; assumption.
Qed.

Lemma half_range (x : Z) : 0 <= Z.land x 0xFFFFFFFF < 2 ^ 32.
Proof.
  rewrite mask32_ones, Z.land_ones by lia. apply Z.mod_pos_bound. lia.
Qed.

Lemma lower_testbit (x i : Z) :
  0 <= i ->
  Z.testbit (Z.land x 0xFFFFFFFF) i = if i <? 32 then Z.testbit x i else false.
Proof.
  intros Hi. rewrite Z.land_spec, mask32_ones, Z.testbit_ones_nonneg by lia.
  destruct (i <? 32); [apply Bool.andb_true_r | apply Bool.andb_false_r].
Qed.

Lemma upper_testbit (x i : Z) :
  0 <= i ->
  Z.testbit (Z.land (Z.shiftr x 32) 0xFFFFFFFF) i =
  if i <? 32 then Z.testbit x (i + 32) else false.
Proof.
  intros Hi. rewrite lower_testbit, Z.shiftr_spec by assumption. reflexivity.
Qed.

(** The read-modify-write of both halves, bit by bit: inside the two
    limit fields the bits are those of the new raw values, everywhere
    else below bit 64 they are those of the old register value. *)
Lemma rmw_testbit (old r1 r2 i : Z) :
  0 <= i ->
  Z.testbit
    (Z.lor
       (Z.shiftl (Z.lor (Z.land (Z.land (Z.shiftr old 32) 0xFFFFFFFF)
                                (Z.lnot 0x7FFF)) (Z.land r2 0x7FFF)) 32)
       (Z.lor (Z.land (Z.land old 0xFFFFFFFF) (Z.lnot 0x7FFF))
              (Z.land r1 0x7FFF))) i =
  if i <? 15 then Z.testbit r1 i
  else if i <? 32 then Z.testbit old i
  else if i <? 47 then Z.testbit r2 (i - 32)
  else if i <? 64 then Z.testbit old i
  else false.
Proof.
  intros Hi.
  rewrite glue_testbit by (try apply patch_range; try apply half_range; lia).
  destruct (Z.ltb_spec i 32).
  - rewrite patch_testbit, lower_testbit by lia.
    destruct (Z.ltb_spec i 15); [reflexivity |].
    destruct (Z.ltb_spec i 32); [reflexivity | lia].
  - rewrite patch_testbit, upper_testbit by lia.
    replace (i - 32 + 32) with i by lia.
    destruct (Z.ltb_spec i 15); [lia |].
    destruct (Z.ltb_spec (i - 32) 15), (Z.ltb_spec i 47),
      (Z.ltb_spec (i - 32) 32), (Z.ltb_spec i 64); try lia; reflexivity.
Qed.

End LimitField.

(** ** Facts about the numeric builtins *)

Section Numeric.

Local Open Scope Q_scope.

Lemma truediv_ok (x y : Q) : ~ y == 0 -> truediv x y = Ok (x / y).
Proof.
  intros Hy. unfold truediv.
  destruct (Qeq_bool y 0) eqn:E; [| reflexivity].
  apply Qeq_bool_iff in E. contradiction.
Qed.

Lemma truediv_zero (x y : Q) : y == 0 -> truediv x y = Raise ZeroDivisionError.
Proof.
  intros Hy. unfold truediv.
  apply Qeq_bool_iff in Hy. now rewrite Hy.
Qed.

Lemma pow2_float_pos (k : Z) : (0 <= k)%Z -> 0 < float (2 ^ k).
Proof.
  intros Hk. unfold float. change 0 with (inject_Z 0).
  rewrite <- Zlt_Qlt. apply Z.pow_pos_nonneg; lia.
Qed.

Lemma pow2_float_nonzero (k : Z) : (0 <= k)%Z -> ~ float (2 ^ k) == 0.
Proof.
  intros Hk E. pose proof (pow2_float_pos k Hk) as H.
  rewrite E in H. now apply Qlt_irrefl in H.
Qed.

Lemma nibble_nonneg (x : Z) : (0 <= Z.land x 0xF < 16)%Z.
Proof.
  change 0xF%Z with (Z.ones 4). rewrite Z.land_ones by lia.
  apply Z.mod_pos_bound. lia.
Qed.

Lemma nibble_mod (x : Z) : Z.land x 0xF = (x mod 16)%Z.
Proof. change 0xF%Z with (Z.ones 4). now rewrite Z.land_ones by lia. Qed.

(** [1.0 / 2^k] is the rational [2^-k]. *)
Lemma inv_pow2 (k : Z) : (0 <= k)%Z -> 1 / float (2 ^ k) == 2 ^ (- k).
Proof.
  intros Hk. unfold float.
  rewrite Qpower_opp, Zpower_Qpower by assumption.
  unfold Qdiv. now rewrite Qmult_1_l.
Qed.

Lemma round_nearest (x : Q) : Qabs (inject_Z (round x) - x) <= 1 # 2.
Proof.
  unfold round.
  pose proof (Qfloor_le x) as Hlo. pose proof (Qlt_floor x) as Hhi.
  set (f := Qfloor x) in *. clearbody f.
  rewrite inject_Z_plus in Hhi. change (inject_Z 1) with 1 in Hhi.
  apply Qabs_Qle_condition.
  destruct (x - inject_Z f ?= 1 # 2) eqn:Hc.
  - apply Qeq_alt in Hc.
    destruct (Z.even f); [| rewrite inject_Z_plus; change (inject_Z 1) with 1];
      qlra.
  - apply Qlt_alt in Hc. qlra.
  - apply Qgt_alt in Hc. rewrite inject_Z_plus. change (inject_Z 1) with 1. qlra.
Qed.

Lemma round_integer (n : Z) : round (inject_Z n) = n.
Proof.
  unfold round. rewrite Qfloor_Z.
  replace (inject_Z n - inject_Z n ?= 1 # 2) with Lt; [reflexivity |].
  symmetry. apply (proj1 (Qlt_alt _ _)). qlra.
Qed.

Lemma round_comp (x y : Q) : x == y -> round x = round y.
Proof.
  intros E. unfold round. rewrite (Qfloor_comp x y E).
  replace (y - inject_Z (Qfloor y) ?= 1 # 2)
    with (x - inject_Z (Qfloor y) ?= 1 # 2); [reflexivity |].
  apply Qcompare_comp; [now rewrite E | reflexivity].
Qed.

(** [int] truncates toward zero: it is the floor of a non-negative
    number and the ceiling of a negative one. *)
Lemma int_nonneg (x : Q) : 0 <= x -> int x = Qfloor x.
Proof.
  intros Hx. unfold int, Qfloor. destruct x as [n d]. simpl.
  apply Z.quot_div_nonneg; [| lia].
  unfold Qle in Hx. simpl in Hx. lia.
Qed.

Lemma int_neg (x : Q) : x <= 0 -> int x = Qceiling x.
Proof.
  intros Hx. unfold int, Qceiling, Qfloor. destruct x as [n d]. simpl.
  assert (Hn : (n <= 0)%Z) by (unfold Qle in Hx; simpl in Hx; lia).
  replace n with (- (- n))%Z at 1 by lia.
  rewrite Z.quot_opp_l by lia.
  rewrite Z.quot_div_nonneg by lia. reflexivity.
Qed.

Lemma int_trunc (x : Q) : Qabs (inject_Z (int x) - x) < 1.
Proof.
  destruct (Qlt_le_dec x 0) as [Hx | Hx].
  - rewrite int_neg by lra.
    pose proof (Qle_ceiling x). pose proof (Qceiling_lt x) as Hlo.
    change (Qceiling x - 1)%Z with (Qceiling x + -1)%Z in Hlo.
    rewrite inject_Z_plus in Hlo. change (inject_Z (-1)) with (-1 # 1) in Hlo.
    apply Qabs_Qlt_condition. qlra.
  - rewrite int_nonneg by assumption.
    pose proof (Qfloor_le x). pose proof (Qlt_floor x) as Hhi.
    rewrite inject_Z_plus in Hhi. change (inject_Z 1) with 1 in Hhi.
    apply Qabs_Qlt_condition. qlra.
Qed.

Lemma int_integer (n : Z) : int (inject_Z n) = n.
Proof. unfold int. simpl. apply Z.quot_1_r. Qed.

Lemma int_comp (x y : Q) : x == y -> int x = int y.
Proof.
  intros E. destruct (Qlt_le_dec x 0) as [Hx | Hx].
  - rewrite !int_neg by lra. now apply Qceiling_comp.
  - rewrite !int_nonneg by lra. now apply Qfloor_comp.
Qed.

End Numeric.

(** ** Running the programs *)

Section Runs.

Local Open Scope Q_scope.

Lemma power_unit_of_pos (u : Z) : 0 < power_unit_of u.
Proof.
  unfold power_unit_of. apply Qlt_shift_div_l.
  - apply pow2_float_pos, nibble_nonneg.
  - rewrite Qmult_0_l. reflexivity.
Qed.

Lemma power_unit_of_nonzero (u : Z) : ~ power_unit_of u == 0.
Proof.
  intros E. pose proof (power_unit_of_pos u) as H. rewrite E in H.
  now apply Qlt_irrefl in H.
Qed.

Lemma shiftl_1_pow2 (k : Z) : Z.shiftl 1 k = (2 ^ k)%Z.
Proof. rewrite Z.shiftl_1_l. reflexivity. Qed.

Lemma gw_read_eq (s : hw) (msr : Z) :
  gw_read msr s =
  match probe s msr with
  | Some v => (Ok v, moved s (regs s) (rest s) [Call (Read msr) true])
  | None => (Raise CalledProcessError,
             moved s (regs s) (rest s) [Call (Read msr) false])
  end.
Proof.
  unfold gw_read, probe, rest, moved.
  destruct (next_fault (faults s)) as [bad fs]. reflexivity.
Qed.

Lemma gw_write_eq (s : hw) (msr v : Z) :
  gw_write msr v s =
  match probe s msr with
  | Some _ => (Ok tt, moved s (<[msr := v]> (regs s)) (rest s)
                        [Call (Write msr v) true])
  | None => (Raise CalledProcessError,
             moved s (regs s) (rest s) [Call (Write msr v) false])
  end.
Proof.
  unfold gw_write, probe, rest, moved.
  destruct (next_fault (faults s)) as [bad fs]. reflexivity.
Qed.

Lemma probe_quiet (s : hw) (msr : Z) :
  faults s = [] -> probe s msr = regs s !! msr.
Proof. intros Hf. unfold probe. now rewrite Hf. Qed.

Lemma rest_quiet (s : hw) : faults s = [] -> rest s = [].
Proof. intros Hf. unfold rest. now rewrite Hf. Qed.

Lemma probe_Some (s : hw) (msr v : Z) :
  probe s msr = Some v -> regs s !! msr = Some v.
Proof. unfold probe. destruct (fst _); [discriminate | trivial]. Qed.

Lemma moved_moved (s : hw) (r r' : gmap Z Z) (fs fs' : list bool)
    (c c' : list gw_call) :
  moved (moved s r fs c) r' fs' c' = moved s r' fs' (c ++ c').
Proof. unfold moved. simpl. now rewrite <- app_assoc. Qed.

(** The two unit decoders: one read, then arithmetic that cannot fail. *)
Lemma decode_units_eq (s : hw) :
  ApplyPl.decode_units s =
  match probe s 0x606 with
  | Some u => (Ok (power_unit_of u, time_unit_16 u),
               moved s (regs s) (rest s) [Call (Read 0x606) true])
  | None => (Raise CalledProcessError,
             moved s (regs s) (rest s) [Call (Read 0x606) false])
  end.
Proof.
  unfold ApplyPl.decode_units, ApplyPl.rdmsr, bind.
  unfold ApplyPl.MSR_RAPL_POWER_UNIT. rewrite gw_read_eq.
  destruct (probe s 0x606) as [u |]; [| reflexivity].
  unfold lift, ret. rewrite !shiftl_1_pow2.
  rewrite !truediv_ok by (apply pow2_float_nonzero, nibble_nonneg).
  reflexivity.
Qed.

Lemma decode_power_time_units_eq (s : hw) :
  Gui.decode_power_time_units s =
  match probe s 0x606 with
  | Some u => (Ok (power_unit_of u, time_unit_4 u),
               moved s (regs s) (rest s) [Call (Read 0x606) true])
  | None => (Raise CalledProcessError,
             moved s (regs s) (rest s) [Call (Read 0x606) false])
  end.
Proof.
  unfold Gui.decode_power_time_units, Gui.run_rdmsr, bind.
  rewrite gw_read_eq.
  destruct (probe s 0x606) as [u |]; [| reflexivity].
  unfold lift, ret.
  rewrite !truediv_ok by (apply pow2_float_nonzero, nibble_nonneg).
  reflexivity.
Qed.

(** The pure encoder of apply_pl.py never fails on a non-zero unit. *)
Lemma encode_power_field_eq (raw : Z) (watts power_unit : Q) :
  ~ power_unit == 0 ->
  ApplyPl.encode_power_field raw watts power_unit =
  Ok (patched raw (int (watts / power_unit))).
Proof.
  intros Hu. unfold ApplyPl.encode_power_field.
  rewrite truediv_ok by assumption. reflexivity.
Qed.

Lemma decode_pls_eq (s : hw) :
  Gui.decode_pls s =
  match probe s 0x606 with
  | None => (Raise CalledProcessError,
             moved s (regs s) (rest s) [Call (Read 0x606) false])
  | Some u =>
      let s1 := moved s (regs s) (rest s) [Call (Read 0x606) true] in
      match probe s1 0x610 with
      | None => (Raise CalledProcessError,
                 moved s1 (regs s1) (rest s1) [Call (Read 0x610) false])
      | Some v => (Ok (decoded u v),
                   moved s1 (regs s1) (rest s1) [Call (Read 0x610) true])
      end
  end.
Proof.
  unfold Gui.decode_pls, bind. rewrite decode_power_time_units_eq.
  destruct (probe s 0x606) as [u |]; [| reflexivity].
  cbv zeta. unfold Gui.run_rdmsr. rewrite gw_read_eq.
  destruct (probe _ 0x610) as [v |]; reflexivity.
Qed.

Lemma encode_pls_eq (pl1_w pl2_w : Q) (old : Z) (s : hw) :
  Gui.encode_pls pl1_w pl2_w old s =
  match probe s 0x606 with
  | None => (Raise CalledProcessError,
             moved s (regs s) (rest s) [Call (Read 0x606) false])
  | Some u =>
      (Ok (rmw old (round (pl1_w / power_unit_of u))
                   (round (pl2_w / power_unit_of u))),
       moved s (regs s) (rest s) [Call (Read 0x606) true])
  end.
Proof.
  unfold Gui.encode_pls, bind. rewrite decode_power_time_units_eq.
  destruct (probe s 0x606) as [u |]; [| reflexivity].
  cbv zeta. unfold lift, fst.
  rewrite !truediv_ok by apply power_unit_of_nonzero.
  reflexivity.
Qed.

Lemma apply_chill_profile_eq (s : hw) :
  ApplyPl.apply_chill_profile s =
  match probe s 0x606 with
  | None => (Raise CalledProcessError,
             moved s (regs s) (rest s) [Call (Read 0x606) false])
  | Some u =>
      let s1 := moved s (regs s) (rest s) [Call (Read 0x606) true] in
      match probe s1 0x610 with
      | None => (Raise CalledProcessError,
                 moved s1 (regs s1) (rest s1) [Call (Read 0x610) false])
      | Some v =>
          let s2 := moved s1 (regs s1) (rest s1) [Call (Read 0x610) true] in
          let v' := rmw v (int (20 / power_unit_of u))
                          (int (28 / power_unit_of u)) in
          match probe s2 0x610 with
          | None => (Raise CalledProcessError,
                     moved s2 (regs s2) (rest s2) [Call (Write 0x610 v') false])
          | Some _ =>
              (Ok tt,
               shown (moved s2 (<[0x610%Z := v']> (regs s2)) (rest s2)
                        [Call (Write 0x610 v') true])
                     (Stdout chill_line))
          end
      end
  end.
Proof.
  unfold ApplyPl.apply_chill_profile, bind. rewrite decode_units_eq.
  destruct (probe s 0x606) as [u |]; [| reflexivity].
  cbv zeta. unfold ApplyPl.rdmsr, ApplyPl.MSR_PKG_POWER_LIMIT.
  rewrite gw_read_eq.
  destruct (probe _ 0x610) as [v |]; [| reflexivity].
  unfold lift, fst.
  rewrite !encode_power_field_eq by apply power_unit_of_nonzero.
  unfold ApplyPl.wrmsr. rewrite gw_write_eq.
  destruct (probe _ 0x610) as [w |]; reflexivity.
Qed.

Lemma apply_profile_rmw_eq (pl1 pl2 : Q) (s : hw) :
  Gui.apply_profile_rmw pl1 pl2 s =
  match probe s 0x606 with
  | None => (Raise CalledProcessError,
             moved s (regs s) (rest s) [Call (Read 0x606) false])
  | Some u =>
      let s1 := moved s (regs s) (rest s) [Call (Read 0x606) true] in
      match probe s1 0x610 with
      | None => (Raise CalledProcessError,
                 moved s1 (regs s1) (rest s1) [Call (Read 0x610) false])
      | Some v =>
          let s2 := moved s1 (regs s1) (rest s1) [Call (Read 0x610) true] in
          match probe s2 0x606 with
          | None => (Raise CalledProcessError,
                     moved s2 (regs s2) (rest s2) [Call (Read 0x606) false])
          | Some u' =>
              let s3 := moved s2 (regs s2) (rest s2) [Call (Read 0x606) true] in
              let v' := rmw v (round (pl1 / power_unit_of u'))
                              (round (pl2 / power_unit_of u')) in
              match probe s3 0x610 with
              | None =>
                  (Raise CalledProcessError,
                   moved s3 (regs s3) (rest s3) [Call (Write 0x610 v') false])
              | Some _ =>
                  (Ok tt, moved s3 (<[0x610%Z := v']> (regs s3)) (rest s3)
                            [Call (Write 0x610 v') true])
              end
          end
      end
  end.
Proof.
  unfold Gui.apply_profile_rmw, bind. rewrite decode_pls_eq.
  destruct (probe s 0x606) as [u |]; [| reflexivity].
  cbv zeta.
  destruct (probe _ 0x610) as [v |]; [| reflexivity].
  rewrite encode_pls_eq.
  destruct (probe _ 0x606) as [u' |]; [| reflexivity].
  unfold Gui.run_wrmsr. rewrite gw_write_eq.
  destruct (probe _ 0x610) as [w |]; reflexivity.
Qed.

End Runs.

(** ** The claims about the limit-field encoder *)

Section Encoder.

Local Open Scope Q_scope.

Lemma encode_pls_quiet (pl1_w pl2_w : Q) (old u : Z) (s : hw) :
  faults s = [] -> regs s !! 0x606%Z = Some u ->
  Gui.encode_pls pl1_w pl2_w old s =
  (Ok (rmw old (round (pl1_w / power_unit_of u))
               (round (pl2_w / power_unit_of u))),
   moved s (regs s) [] [Call (Read 0x606) true]).
Proof.
  intros Hf Hr. rewrite encode_pls_eq, probe_quiet, Hr by assumption.
  now rewrite rest_quiet.
Qed.

Lemma rmw_lower (old r1 r2 : Z) :
  Z.land (rmw old r1 r2) 0xFFFFFFFF = patched (Z.land old 0xFFFFFFFF) r1.
Proof. unfold rmw. apply glue_lower, patch_range, half_range. Qed.

Lemma rmw_upper (old r1 r2 : Z) :
  Z.land (Z.shiftr (rmw old r1 r2) 32) 0xFFFFFFFF =
  patched (Z.land (Z.shiftr old 32) 0xFFFFFFFF) r2.
Proof. unfold rmw. apply glue_upper; apply patch_range, half_range. Qed.

Lemma rmw_range (old r1 r2 : Z) : (0 <= rmw old r1 r2 < 2 ^ 64)%Z.
Proof.
  set (y := rmw old r1 r2).
  assert (E : y = (y mod 2 ^ 64)%Z).
  { rewrite <- Z.land_ones by lia. apply Z.bits_inj'. intros i Hi.
    unfold y, rmw, patched. rewrite Z.land_spec, rmw_testbit by assumption.
    rewrite Z.testbit_ones_nonneg by lia.
    destruct (Z.ltb_spec i 15), (Z.ltb_spec i 32), (Z.ltb_spec i 47),
      (Z.ltb_spec i 64);
      rewrite ?Bool.andb_true_r, ?Bool.andb_false_r; try reflexivity; lia. }
  rewrite E. apply Z.mod_pos_bound. lia.
Qed.

(** C2: the encoder leaves bits 15-31 of the half it is given as they
    were; only bits 0-14 may differ.  This holds for every half and every
    wattage (a fortiori for 32-bit halves and wattages whose raw value
    fits in 15 bits), for [encode_power_field] and for each of the two
    halves [encode_pls] rebuilds. *)
Theorem C2_encode_keeps_bits_15_to_31
    (original_half old u : Z) (desired_watts other_watts power_unit : Q)
    (s : hw) :
  ~ power_unit == 0 ->
  faults s = [] ->
  regs s !! 0x606%Z = Some u ->
  (exists r,
      ApplyPl.encode_power_field original_half desired_watts power_unit = Ok r /\
      forall i, (15 <= i)%Z -> Z.testbit r i = Z.testbit original_half i)
  /\
  (exists new s',
      Gui.encode_pls desired_watts other_watts old s = (Ok new, s') /\
      forall i, (15 <= i < 32)%Z ->
        Z.testbit (Z.land new 0xFFFFFFFF) i =
          Z.testbit (Z.land old 0xFFFFFFFF) i /\
        Z.testbit (Z.land (Z.shiftr new 32) 0xFFFFFFFF) i =
          Z.testbit (Z.land (Z.shiftr old 32) 0xFFFFFFFF) i).
Proof.
  intros Hu Hf Hr. split.
  - eexists. split; [apply encode_power_field_eq; assumption |].
    intros i Hi. unfold patched. rewrite patch_testbit by lia.
    destruct (Z.ltb_spec i 15); [lia | reflexivity].
  - eexists. eexists. split; [apply encode_pls_quiet; eassumption |].
    intros i Hi. rewrite rmw_lower, rmw_upper. unfold patched.
    rewrite !patch_testbit by lia.
    destruct (Z.ltb_spec i 15); [lia |]. split; reflexivity.
Qed.

Lemma C2_witness :
  (exists r,
      ApplyPl.encode_power_field 0x00088000 20 (1 # 8) = Ok r /\
      forall i, (15 <= i)%Z -> Z.testbit r i = Z.testbit 0x00088000 i)
  /\
  (exists new s',
      Gui.encode_pls 20 28 0x8000000000DD8000 reference_hw = (Ok new, s') /\
      forall i, (15 <= i < 32)%Z ->
        Z.testbit (Z.land new 0xFFFFFFFF) i =
          Z.testbit (Z.land 0x8000000000DD8000 0xFFFFFFFF) i /\
        Z.testbit (Z.land (Z.shiftr new 32) 0xFFFFFFFF) i =
          Z.testbit (Z.land (Z.shiftr 0x8000000000DD8000 32) 0xFFFFFFFF) i).
Proof.
  apply (C2_encode_keeps_bits_15_to_31 0x00088000 0x8000000000DD8000 0xA0E03
           20 28 (1 # 8) reference_hw).
  - intros E. discriminate E.
  - reflexivity.
  - reflexivity.
Defined.

(** C9: scenario 2.  For the half 0x00088000, unit 0.125 W and 20.0 W
    the raw value is 160 = 0xA0 and the encoder returns 0x000880A0: bits 15
    and 16 are as they were in the input and the limit field holds 0xA0.
    The same half encoded by [encode_pls] on a machine whose power
    exponent is 3 gives the same lower half. *)
Theorem C9_scenario_2 (s : hw) (u old : Z) (pl2_w : Q) :
  faults s = [] ->
  regs s !! 0x606%Z = Some u ->
  Z.land u 0xF = 3%Z ->
  Z.land old 0xFFFFFFFF = 0x00088000%Z ->
  (int (20 / (1 # 8)) = 160%Z /\
   round (20 / (1 # 8)) = 160%Z /\
   ApplyPl.encode_power_field 0x00088000 20 (1 # 8) = Ok 0x000880A0%Z /\
   Z.testbit 0x000880A0 15 = Z.testbit 0x00088000 15 /\
   Z.testbit 0x000880A0 16 = Z.testbit 0x00088000 16 /\
   Z.land 0x000880A0 0x7FFF = 0xA0%Z)
  /\
  (exists new s',
      Gui.encode_pls 20 pl2_w old s = (Ok new, s') /\
      Z.land new 0xFFFFFFFF = 0x000880A0%Z).
Proof.
  intros Hf Hr Hp Hold. split.
  - repeat split; reflexivity.
  - eexists. eexists. split; [apply encode_pls_quiet; eassumption |].
    rewrite rmw_lower, Hold. unfold power_unit_of. rewrite Hp. reflexivity.
Qed.

Lemma C9_witness :
  (int (20 / (1 # 8)) = 160%Z /\
   round (20 / (1 # 8)) = 160%Z /\
   ApplyPl.encode_power_field 0x00088000 20 (1 # 8) = Ok 0x000880A0%Z /\
   Z.testbit 0x000880A0 15 = Z.testbit 0x00088000 15 /\
   Z.testbit 0x000880A0 16 = Z.testbit 0x00088000 16 /\
   Z.land 0x000880A0 0x7FFF = 0xA0%Z)
  /\
  (exists new s',
      Gui.encode_pls 20 28 0x00088000 reference_hw = (Ok new, s') /\
      Z.land new 0xFFFFFFFF = 0x000880A0%Z).
Proof.
  apply (C9_scenario_2 reference_hw 0xA0E03 0x00088000 28); reflexivity.
Defined.

(** C10: a 32-bit half stays a 32-bit half under the encoder, so the two
    encoded halves glued as [(hi << 32) | lo] do not overlap: each reads
    back unchanged from its own side of the 64-bit value.  For
    [encode_pls] the glued value is a 64-bit value whose two limit
    fields hold the low 15 bits of their own raw value. *)
Theorem C10_encoded_halves_do_not_overlap
    (lo hi old u : Z) (pl1_w pl2_w power_unit : Q) (s : hw) :
  (0 <= lo < 2 ^ 32)%Z ->
  (0 <= hi < 2 ^ 32)%Z ->
  0 <= pl1_w ->
  0 <= pl2_w ->
  0 < power_unit ->
  faults s = [] ->
  regs s !! 0x606%Z = Some u ->
  (exists lo' hi',
      ApplyPl.encode_power_field lo pl1_w power_unit = Ok lo' /\
      ApplyPl.encode_power_field hi pl2_w power_unit = Ok hi' /\
      (0 <= lo' < 2 ^ 32)%Z /\
      (0 <= hi' < 2 ^ 32)%Z /\
      Z.land (Z.lor (Z.shiftl hi' 32) lo') 0xFFFFFFFF = lo' /\
      Z.land (Z.shiftr (Z.lor (Z.shiftl hi' 32) lo') 32) 0xFFFFFFFF = hi')
  /\
  (exists new s',
      Gui.encode_pls pl1_w pl2_w old s = (Ok new, s') /\
      (0 <= new < 2 ^ 64)%Z /\
      Z.land (Z.land new 0xFFFFFFFF) 0x7FFF =
        (round (pl1_w / power_unit_of u) mod 2 ^ 15)%Z /\
      Z.land (Z.land (Z.shiftr new 32) 0xFFFFFFFF) 0x7FFF =
        (round (pl2_w / power_unit_of u) mod 2 ^ 15)%Z).
Proof.
  intros Hlo Hhi H1 H2 Hu Hf Hr.
  assert (Hnz : ~ power_unit == 0) by (intros E; rewrite E in Hu; discriminate).
  split.
  - eexists. eexists.
    split; [apply encode_power_field_eq; assumption |].
    split; [apply encode_power_field_eq; assumption |].
    pose proof (patch_range lo (int (pl1_w / power_unit)) Hlo) as Rlo.
    pose proof (patch_range hi (int (pl2_w / power_unit)) Hhi) as Rhi.
    fold (patched lo (int (pl1_w / power_unit))) in Rlo.
    fold (patched hi (int (pl2_w / power_unit))) in Rhi.
    split; [exact Rlo |]. split; [exact Rhi |].
    split; [apply glue_lower | apply glue_upper]; assumption.
  - eexists. eexists. split; [apply encode_pls_quiet; eassumption |].
    split; [apply rmw_range |].
    rewrite rmw_lower, rmw_upper. unfold patched. split; apply patch_low.
Qed.

Lemma C10_witness :
  (exists lo' hi',
      ApplyPl.encode_power_field 0x00DD8000 20 (1 # 8) = Ok lo' /\
      ApplyPl.encode_power_field 0x80000000 28 (1 # 8) = Ok hi' /\
      (0 <= lo' < 2 ^ 32)%Z /\
      (0 <= hi' < 2 ^ 32)%Z /\
      Z.land (Z.lor (Z.shiftl hi' 32) lo') 0xFFFFFFFF = lo' /\
      Z.land (Z.shiftr (Z.lor (Z.shiftl hi' 32) lo') 32) 0xFFFFFFFF = hi')
  /\
  (exists new s',
      Gui.encode_pls 20 28 0x8000000000DD8000 reference_hw = (Ok new, s') /\
      (0 <= new < 2 ^ 64)%Z /\
      Z.land (Z.land new 0xFFFFFFFF) 0x7FFF =
        (round (20 / power_unit_of 0xA0E03) mod 2 ^ 15)%Z /\
      Z.land (Z.land (Z.shiftr new 32) 0xFFFFFFFF) 0x7FFF =
        (round (28 / power_unit_of 0xA0E03) mod 2 ^ 15)%Z).
Proof.
  apply (C10_encoded_halves_do_not_overlap 0x00DD8000 0x80000000
           0x8000000000DD8000 0xA0E03 20 28 (1 # 8) reference_hw);
    try reflexivity; try (split; [discriminate | reflexivity]);
    discriminate.
Defined.

(** The claim C3 as stated fails: 4096 W at 0.125 W per step converts to
    the raw value 32768 > 0x7FFF, and the encoder returns normally, with
    a zero limit field, where the claim has it fail. *)
Lemma C3_counterexample :
  int (4096 / (1 # 8)) = 32768%Z /\
  (32768 > 0x7FFF)%Z /\
  ApplyPl.encode_power_field 0x00088000 4096 (1 # 8) = Ok 0x00088000%Z /\
  fst (Gui.encode_pls 4096 28 0x00088000 reference_hw) = Ok 0xE000088000%Z.
Proof. repeat split; reflexivity. Qed.

(** C3, amended: for every unit [2^-p] the decoders return and every
    wattage whose float quotient by the unit is finite, the encoder
    returns, whatever the raw value: the limit field of the result holds
    the raw value modulo 2^15.  So a raw value of 0x7FFF is stored as it
    is, and a raw value above 0x7FFF is reduced to its low 15 bits
    without any error.  The same holds for the fields written by
    [encode_pls]. *)
Theorem C3_encode_masks_out_of_range
    (original_half old u : Z) (desired_watts pl2_w : Q) (s : hw) :
  finite_quotient desired_watts (power_unit_of u) ->
  finite_quotient pl2_w (power_unit_of u) ->
  faults s = [] ->
  regs s !! 0x606%Z = Some u ->
  (exists r,
      ApplyPl.encode_power_field original_half desired_watts (power_unit_of u)
        = Ok r /\
      Z.land r 0x7FFF = (int (desired_watts / power_unit_of u) mod 2 ^ 15)%Z /\
      (int (desired_watts / power_unit_of u) = 0x7FFF%Z ->
       Z.land r 0x7FFF = 0x7FFF%Z) /\
      ((int (desired_watts / power_unit_of u) > 0x7FFF)%Z ->
       Z.land r 0x7FFF <> int (desired_watts / power_unit_of u)))
  /\
  (exists new s',
      Gui.encode_pls desired_watts pl2_w old s = (Ok new, s') /\
      Z.land (Z.land new 0xFFFFFFFF) 0x7FFF =
        (round (desired_watts / power_unit_of u) mod 2 ^ 15)%Z /\
      Z.land (Z.land (Z.shiftr new 32) 0xFFFFFFFF) 0x7FFF =
        (round (pl2_w / power_unit_of u) mod 2 ^ 15)%Z /\
      (round (desired_watts / power_unit_of u) = 0x7FFF%Z ->
       Z.land (Z.land new 0xFFFFFFFF) 0x7FFF = 0x7FFF%Z) /\
      ((round (desired_watts / power_unit_of u) > 0x7FFF)%Z ->
       Z.land (Z.land new 0xFFFFFFFF) 0x7FFF <>
       round (desired_watts / power_unit_of u))).
Proof.
  intros _ _ Hf Hr. split.
  - eexists.
    split; [apply encode_power_field_eq, power_unit_of_nonzero |].
    unfold patched. rewrite patch_low.
    split; [reflexivity |]. split.
    + intros ->. reflexivity.
    + intros Hbig E.
      pose proof (Z.mod_pos_bound (int (desired_watts / power_unit_of u))
                    (2 ^ 15)).
      lia.
  - eexists. eexists. split; [apply encode_pls_quiet; eassumption |].
    rewrite rmw_lower, rmw_upper. unfold patched. rewrite !patch_low.
    split; [reflexivity |]. split; [reflexivity |]. split.
    + intros ->. reflexivity.
    + intros Hbig E.
      pose proof (Z.mod_pos_bound (round (desired_watts / power_unit_of u))
                    (2 ^ 15)).
      lia.
Qed.

Lemma C3_witness :
  (exists r,
      ApplyPl.encode_power_field 0x00088000 4096 (power_unit_of 0xA0E03)
        = Ok r /\
      Z.land r 0x7FFF = (int (4096 / power_unit_of 0xA0E03) mod 2 ^ 15)%Z /\
      (int (4096 / power_unit_of 0xA0E03) = 0x7FFF%Z ->
       Z.land r 0x7FFF = 0x7FFF%Z) /\
      ((int (4096 / power_unit_of 0xA0E03) > 0x7FFF)%Z ->
       Z.land r 0x7FFF <> int (4096 / power_unit_of 0xA0E03)))
  /\
  (exists new s',
      Gui.encode_pls 4096 28 0x00088000 reference_hw = (Ok new, s') /\
      Z.land (Z.land new 0xFFFFFFFF) 0x7FFF =
        (round (4096 / power_unit_of 0xA0E03) mod 2 ^ 15)%Z /\
      Z.land (Z.land (Z.shiftr new 32) 0xFFFFFFFF) 0x7FFF =
        (round (28 / power_unit_of 0xA0E03) mod 2 ^ 15)%Z /\
      (round (4096 / power_unit_of 0xA0E03) = 0x7FFF%Z ->
       Z.land (Z.land new 0xFFFFFFFF) 0x7FFF = 0x7FFF%Z) /\
      ((round (4096 / power_unit_of 0xA0E03) > 0x7FFF)%Z ->
       Z.land (Z.land new 0xFFFFFFFF) 0x7FFF <>
       round (4096 / power_unit_of 0xA0E03))).
Proof.
  apply (C3_encode_masks_out_of_range 0x00088000 0x00088000 0xA0E03
           4096 28 reference_hw); reflexivity.
Defined.

(** C5: [encode_pls] rounds the quotient to the nearest integer, but
    [encode_power_field] truncates it toward zero.  For 20.09375 W at
    0.125 W per step the quotient is 160.75: rounding gives 161, and
    [encode_pls] stores 161 = 0xA1, while [encode_power_field] stores
    160 = 0xA0. *)
Theorem C5_encode_power_field_truncates :
  (643 # 32) / (1 # 8) == 643 # 4 /\
  round ((643 # 32) / (1 # 8)) = 161%Z /\
  int ((643 # 32) / (1 # 8)) = 160%Z /\
  ApplyPl.encode_power_field 0x00088000 (643 # 32) (1 # 8) = Ok 0x000880A0%Z /\
  Z.land (patched 0x00088000 (round ((643 # 32) / (1 # 8)))) 0x7FFF = 0xA1%Z /\
  fst (Gui.encode_pls (643 # 32) 28 0x00088000 reference_hw) = Ok 0xE0000880A1%Z.
Proof. repeat split; reflexivity. Qed.

(** The raw value [encode_pls] stores is a nearest integer of the
    quotient, for every wattage and unit register. *)
Lemma encode_pls_rounds_to_nearest (pl1_w pl2_w : Q) (old u : Z) (s : hw) :
  faults s = [] ->
  regs s !! 0x606%Z = Some u ->
  exists r1 r2 s',
    Gui.encode_pls pl1_w pl2_w old s = (Ok (rmw old r1 r2), s') /\
    Qabs (inject_Z r1 - pl1_w / power_unit_of u) <= 1 # 2 /\
    Qabs (inject_Z r2 - pl2_w / power_unit_of u) <= 1 # 2.
Proof.
  intros Hf Hr. eexists. eexists. eexists.
  split; [apply encode_pls_quiet; eassumption |].
  split; apply round_nearest.
Qed.

End Encoder.

(** ** The claims about the decoders *)

Section Decoders.

Local Open Scope Q_scope.

Lemma land_shiftr_bits (x lo hi : Z) :
  (0 <= lo <= hi)%Z ->
  Z.land (Z.shiftr x lo) (Z.ones (hi - lo + 1)) = bits_of x lo hi.
Proof.
  intros H. unfold bits_of.
  rewrite Z.land_ones, Z.shiftr_div_pow2 by lia. reflexivity.
Qed.

Lemma land_bits (x hi : Z) :
  (0 <= hi)%Z -> Z.land x (Z.ones (hi + 1)) = bits_of x 0 hi.
Proof.
  intros H. unfold bits_of. rewrite Z.land_ones by lia.
  rewrite Z.pow_0_r, Z.div_1_r, Z.sub_0_r. reflexivity.
Qed.

Lemma lower_half_land (x : Z) : Z.land x 0xFFFFFFFF = lower_half x.
Proof. unfold lower_half. rewrite mask32_ones, Z.land_ones by lia. reflexivity. Qed.

Lemma upper_half_land (x : Z) :
  Z.land (Z.shiftr x 32) 0xFFFFFFFF = upper_half x.
Proof.
  unfold upper_half.
  rewrite mask32_ones, Z.land_ones, Z.shiftr_div_pow2 by lia. reflexivity.
Qed.

Lemma power_unit_of_spec (u : Z) : power_unit_of u == 2 ^ (- bits_of u 0 3).
Proof.
  unfold power_unit_of. rewrite inv_pow2 by apply nibble_nonneg.
  change 0xF%Z with (Z.ones (3 + 1)). rewrite land_bits by lia. reflexivity.
Qed.

Lemma time_unit_16_spec (u : Z) : time_unit_16 u == 2 ^ (- bits_of u 16 19).
Proof.
  unfold time_unit_16. rewrite inv_pow2 by apply nibble_nonneg.
  change 0xF%Z with (Z.ones (19 - 16 + 1)).
  rewrite land_shiftr_bits by lia. reflexivity.
Qed.

Lemma time_unit_4_spec (u : Z) : time_unit_4 u == 2 ^ (- bits_of u 4 7).
Proof.
  unfold time_unit_4. rewrite inv_pow2 by apply nibble_nonneg.
  change 0xF%Z with (Z.ones (7 - 4 + 1)).
  rewrite land_shiftr_bits by lia. reflexivity.
Qed.

(** The claim C4 as stated fails for the decoder of cpu_pl_gui.py: the
    unit register 0xA0E03 has time exponent 10 in bits 16-19, and the
    decoder returns a time unit of 1 s, not 2^-10 s. *)
Lemma C4_counterexample :
  bits_of 0xA0E03 16 19 = 10%Z /\
  fst (Gui.decode_power_time_units reference_hw) = Ok (1 # 8, 1 # 1) /\
  ~ (1 # 1 == 2 ^ (- bits_of 0xA0E03 16 19)).
Proof.
  split; [reflexivity |]. split; [reflexivity |].
  intros E. discriminate E.
Qed.

(** C4, amended: both decoders take the power exponent [p] from bits 0-3
    of the unit register and return [power_unit = 2^-p] exactly.
    [decode_units] (apply_pl.py) takes the time exponent [t] from bits
    16-19 and returns [time_unit = 2^-t]; [decode_power_time_units]
    (cpu_pl_gui.py) takes the time exponent from bits 4-7 instead. *)
Theorem C4_decode_unit_scale (s : hw) (u : Z) :
  faults s = [] ->
  regs s !! 0x606%Z = Some u ->
  (exists power_unit time_unit s',
      ApplyPl.decode_units s = (Ok (power_unit, time_unit), s') /\
      power_unit == 2 ^ (- bits_of u 0 3) /\
      time_unit == 2 ^ (- bits_of u 16 19))
  /\
  (exists power_unit time_unit s',
      Gui.decode_power_time_units s = (Ok (power_unit, time_unit), s') /\
      power_unit == 2 ^ (- bits_of u 0 3) /\
      time_unit == 2 ^ (- bits_of u 4 7)).
Proof.
  intros Hf Hr. split.
  - exists (power_unit_of u), (time_unit_16 u). eexists.
    split.
    + rewrite decode_units_eq, probe_quiet, Hr by assumption. reflexivity.
    + split; [apply power_unit_of_spec | apply time_unit_16_spec].
  - exists (power_unit_of u), (time_unit_4 u). eexists.
    split.
    + rewrite decode_power_time_units_eq, probe_quiet, Hr by assumption.
      reflexivity.
    + split; [apply power_unit_of_spec | apply time_unit_4_spec].
Qed.

Lemma C4_witness :
  (exists power_unit time_unit s',
      ApplyPl.decode_units reference_hw = (Ok (power_unit, time_unit), s') /\
      power_unit == 2 ^ (- bits_of 0xA0E03 0 3) /\
      time_unit == 2 ^ (- bits_of 0xA0E03 16 19))
  /\
  (exists power_unit time_unit s',
      Gui.decode_power_time_units reference_hw =
        (Ok (power_unit, time_unit), s') /\
      power_unit == 2 ^ (- bits_of 0xA0E03 0 3) /\
      time_unit == 2 ^ (- bits_of 0xA0E03 4 7)).
Proof.
  apply (C4_decode_unit_scale reference_hw 0xA0E03); reflexivity.
Defined.

Lemma nibbles_spec (k : Z) : (0 <= k < 16)%Z -> In k nibbles.
Proof.
  intros Hk. apply in_map_iff. exists (Z.to_nat k).
  split; [lia | apply in_seq; lia].
Qed.

Lemma exponent_fields_checked :
  forallb (fun p => forallb (fun t =>
     Z.eqb (bits_of (Z.lor (Z.shiftl t 16) p) 0 3) p &&
     Z.eqb (bits_of (Z.lor (Z.shiftl t 16) p) 16 19) t) nibbles) nibbles = true.
Proof. vm_compute. reflexivity. Qed.

Lemma exponent_fields (p t : Z) :
  (0 <= p < 16)%Z -> (0 <= t < 16)%Z ->
  bits_of (Z.lor (Z.shiftl t 16) p) 0 3 = p /\
  bits_of (Z.lor (Z.shiftl t 16) p) 16 19 = t.
Proof.
  intros Hp Ht. pose proof exponent_fields_checked as H.
  rewrite forallb_forall in H. specialize (H p (nibbles_spec p Hp)).
  rewrite forallb_forall in H. specialize (H t (nibbles_spec t Ht)).
  apply andb_prop in H. destruct H as [H1 H2].
  split; now apply Z.eqb_eq.
Qed.

(** All 16 x 16 exponent pairs: a unit register built from [p] in bits
    0-3 and [t] in bits 16-19 decodes, with [decode_units], to
    [2^-p] and [2^-t]. *)
Lemma decode_units_all_exponents (s : hw) (p t : Z) :
  (0 <= p < 16)%Z -> (0 <= t < 16)%Z ->
  faults s = [] ->
  regs s !! 0x606%Z = Some (Z.lor (Z.shiftl t 16) p) ->
  exists power_unit time_unit s',
    ApplyPl.decode_units s = (Ok (power_unit, time_unit), s') /\
    power_unit == 2 ^ (- p) /\ time_unit == 2 ^ (- t).
Proof.
  intros Hp Ht Hf Hr.
  destruct (exponent_fields p t Hp Ht) as [E1 E2].
  eexists. eexists. eexists. split.
  - rewrite decode_units_eq, probe_quiet, Hr by assumption. reflexivity.
  - split.
    + rewrite power_unit_of_spec, E1. reflexivity.
    + rewrite time_unit_16_spec, E2. reflexivity.
Qed.

Lemma decode_pls_quiet (s : hw) (u v : Z) :
  faults s = [] ->
  regs s !! 0x606%Z = Some u ->
  regs s !! 0x610%Z = Some v ->
  Gui.decode_pls s =
  (Ok (decoded u v),
   moved s (regs s) [] [Call (Read 0x606) true; Call (Read 0x610) true]).
Proof.
  intros Hf Hu Hv. rewrite decode_pls_eq, probe_quiet, Hu by assumption.
  cbv zeta. rewrite rest_quiet by assumption.
  rewrite probe_quiet by reflexivity. simpl regs. rewrite Hv.
  rewrite rest_quiet by reflexivity. rewrite moved_moved. reflexivity.
Qed.

(** C8: [decode_pls] returns, for the limit register [v] and the unit
    scale it has just decoded, [pl1 = (bits 0-14 of the lower half) *
    power_unit], [pl2 = (bits 0-14 of the upper half) * power_unit] and
    [tau = time_unit * 2^w] with [w] the bits 17-23 of the lower half;
    the raw register value is returned with them. *)
Theorem C8_decode_limits (s : hw) (u v : Z) :
  faults s = [] ->
  regs s !! 0x606%Z = Some u ->
  regs s !! 0x610%Z = Some v ->
  exists power_unit time_unit s1 pl1_w pl2_w tau_seconds s',
    Gui.decode_power_time_units s = (Ok (power_unit, time_unit), s1) /\
    Gui.decode_pls s = (Ok (pl1_w, pl2_w, tau_seconds, v), s') /\
    pl1_w == inject_Z (bits_of (lower_half v) 0 14) * power_unit /\
    pl2_w == inject_Z (bits_of (upper_half v) 0 14) * power_unit /\
    tau_seconds == time_unit * 2 ^ bits_of (lower_half v) 17 23.
Proof.
  intros Hf Hu Hv.
  exists (power_unit_of u), (time_unit_4 u). eexists.
  eexists. eexists. eexists. eexists.
  split.
  { rewrite decode_power_time_units_eq, probe_quiet, Hu by assumption.
    reflexivity. }
  split; [exact (decode_pls_quiet s u v Hf Hu Hv) |].
  unfold float, mul.
  rewrite lower_half_land, upper_half_land.
  change 0x7FFF%Z with (Z.ones (14 + 1)). rewrite !land_bits by lia.
  change 0x7F%Z with (Z.ones (23 - 17 + 1)). rewrite land_shiftr_bits by lia.
  split; [reflexivity |]. split; [reflexivity |].
  rewrite Zpower_Qpower; [reflexivity |].
  unfold bits_of. apply Z.mod_pos_bound. lia.
Qed.

Lemma C8_witness :
  exists power_unit time_unit s1 pl1_w pl2_w tau_seconds s',
    Gui.decode_power_time_units reference_hw =
      (Ok (power_unit, time_unit), s1) /\
    Gui.decode_pls reference_hw =
      (Ok (pl1_w, pl2_w, tau_seconds, 0x8000000000DD8000%Z), s') /\
    pl1_w == inject_Z (bits_of (lower_half 0x8000000000DD8000) 0 14) * power_unit /\
    pl2_w == inject_Z (bits_of (upper_half 0x8000000000DD8000) 0 14) * power_unit /\
    tau_seconds == time_unit * 2 ^ bits_of (lower_half 0x8000000000DD8000) 17 23.
Proof.
  apply (C8_decode_limits reference_hw 0xA0E03 0x8000000000DD8000);
    reflexivity.
Defined.

(** Scenario 1: power exponent 3 and time exponent 0 give 0.125 W and
    1 s per step. *)
Example scenario_1 :
  fst (ApplyPl.decode_units (Hw (<[0x606%Z := 0x3%Z]> ∅) [] [] [])) =
  Ok (1 # 8, 1 # 1).
Proof. reflexivity. Qed.

End Decoders.

(** ** The claims about the apply transaction *)

Section Apply.

Local Open Scope Q_scope.

Lemma apply_chill_profile_quiet (s : hw) (u v : Z) :
  faults s = [] ->
  regs s !! 0x606%Z = Some u ->
  regs s !! 0x610%Z = Some v ->
  let v' := rmw v (int (20 / power_unit_of u)) (int (28 / power_unit_of u)) in
  ApplyPl.apply_chill_profile s =
  (Ok tt,
   shown (moved s (<[0x610%Z := v']> (regs s)) []
            [Call (Read 0x606) true; Call (Read 0x610) true;
             Call (Write 0x610 v') true])
         (Stdout chill_line)).
Proof.
  intros Hf Hu Hv v'. rewrite apply_chill_profile_eq.
  rewrite probe_quiet, Hu by assumption. cbv zeta.
  rewrite (rest_quiet s Hf).
  rewrite probe_quiet by reflexivity. simpl regs. rewrite Hv.
  rewrite rest_quiet by reflexivity.
  rewrite probe_quiet by reflexivity. simpl regs. rewrite Hv.
  rewrite rest_quiet by reflexivity.
  rewrite !moved_moved. reflexivity.
Qed.

Lemma apply_profile_rmw_quiet (pl1 pl2 : Q) (s : hw) (u v : Z) :
  faults s = [] ->
  regs s !! 0x606%Z = Some u ->
  regs s !! 0x610%Z = Some v ->
  let v' := rmw v (round (pl1 / power_unit_of u))
                  (round (pl2 / power_unit_of u)) in
  Gui.apply_profile_rmw pl1 pl2 s =
  (Ok tt,
   moved s (<[0x610%Z := v']> (regs s)) []
     [Call (Read 0x606) true; Call (Read 0x610) true;
      Call (Read 0x606) true; Call (Write 0x610 v') true]).
Proof.
  intros Hf Hu Hv v'. rewrite apply_profile_rmw_eq.
  rewrite probe_quiet, Hu by assumption. cbv zeta.
  rewrite (rest_quiet s Hf).
  rewrite probe_quiet by reflexivity. simpl regs. rewrite Hv.
  rewrite rest_quiet by reflexivity.
  rewrite probe_quiet by reflexivity. simpl regs. rewrite Hu.
  rewrite rest_quiet by reflexivity.
  rewrite probe_quiet by reflexivity. simpl regs. rewrite Hv.
  rewrite rest_quiet by reflexivity.
  rewrite !moved_moved. reflexivity.
Qed.

(** The label refresh shows the limits or an error box; it never raises. *)
Lemma update_current_label_quiet (s : hw) (u v : Z) :
  faults s = [] ->
  regs s !! 0x606%Z = Some u ->
  regs s !! 0x610%Z = Some v ->
  Gui.update_current_label s =
  (Ok tt,
   shown (moved s (regs s) [] [Call (Read 0x606) true; Call (Read 0x610) true])
         (CurrentLabel (fst (fst (fst (decoded u v))))
                       (snd (fst (fst (decoded u v))))
                       (snd (fst (decoded u v))))).
Proof.
  intros Hf Hu Hv. unfold Gui.update_current_label, try_except, bind.
  rewrite (decode_pls_quiet s u v Hf Hu Hv). reflexivity.
Qed.

Lemma testbit_high_64 (x i : Z) :
  (0 <= x < 2 ^ 64)%Z -> (64 <= i)%Z -> Z.testbit x i = false.
Proof.
  intros Hx Hi. rewrite <- (Z.mod_small x (2 ^ 64)) by assumption.
  apply Z.mod_pow2_bits_high. lia.
Qed.

(** The written value and the value read agree on every bit outside the
    two limit fields. *)
Lemma rmw_frame (old r1 r2 i : Z) :
  (0 <= old < 2 ^ 64)%Z ->
  ~ (0 <= i < 15)%Z -> ~ (32 <= i < 47)%Z ->
  Z.testbit (rmw old r1 r2) i = Z.testbit old i.
Proof.
  intros Hold H1 H2.
  destruct (Z.lt_ge_cases i 0) as [Hneg | Hpos].
  - now rewrite !Z.testbit_neg_r.
  - unfold rmw, patched. rewrite rmw_testbit by assumption.
    destruct (Z.ltb_spec i 15); [lia |].
    destruct (Z.ltb_spec i 32); [reflexivity |].
    destruct (Z.ltb_spec i 47); [lia |].
    destruct (Z.ltb_spec i 64); [reflexivity |].
    symmetry. apply testbit_high_64; assumption.
Qed.

(** The time-window field of the lower half is not touched. *)
Lemma rmw_time_window (old r1 r2 : Z) :
  Z.land (Z.shiftr (Z.land (rmw old r1 r2) 0xFFFFFFFF) 17) 0x7F =
  Z.land (Z.shiftr (Z.land old 0xFFFFFFFF) 17) 0x7F.
Proof.
  rewrite rmw_lower. f_equal. apply Z.bits_inj'. intros i Hi.
  rewrite !Z.shiftr_spec by assumption. unfold patched.
  rewrite patch_testbit by lia.
  destruct (Z.ltb_spec (i + 17) 15); [lia | reflexivity].
Qed.

(** A raw value that fits the field is read back as it was stored. *)
Lemma rmw_limit_1 (old r1 r2 : Z) :
  (0 <= r1 <= 0x7FFF)%Z ->
  Z.land (Z.land (rmw old r1 r2) 0xFFFFFFFF) 0x7FFF = r1.
Proof.
  intros H. rewrite rmw_lower. unfold patched. rewrite patch_low.
  apply Z.mod_small. lia.
Qed.

Lemma rmw_limit_2 (old r1 r2 : Z) :
  (0 <= r2 <= 0x7FFF)%Z ->
  Z.land (Z.land (Z.shiftr (rmw old r1 r2) 32) 0xFFFFFFFF) 0x7FFF = r2.
Proof.
  intros H. rewrite rmw_upper. unfold patched. rewrite patch_low.
  apply Z.mod_small. lia.
Qed.

(** A raw value within one step of the quotient decodes to a wattage
    within one unit of the wattage asked for. *)
Lemma within_one_step (raw : Z) (watts power_unit : Q) :
  0 < power_unit ->
  Qabs (inject_Z raw - watts / power_unit) <= 1 ->
  Qabs (mul (float raw) power_unit - watts) <= power_unit.
Proof.
  intros Hu H. unfold mul, float.
  assert (E : inject_Z raw * power_unit - watts ==
              (inject_Z raw - watts / power_unit) * power_unit).
  { field. intros E. rewrite E in Hu. discriminate. }
  rewrite E, Qabs_Qmult, (Qabs_pos power_unit) by now apply Qlt_le_weak.
  apply Qle_trans with (1 * power_unit).
  - apply Qmult_le_compat_r; [assumption | now apply Qlt_le_weak].
  - rewrite Qmult_1_l. apply Qle_refl.
Qed.

Lemma round_within_one (x : Q) : Qabs (inject_Z (round x) - x) <= 1.
Proof.
  eapply Qle_trans; [apply round_nearest | discriminate].
Qed.

Lemma int_within_one (x : Q) : Qabs (inject_Z (int x) - x) <= 1.
Proof. apply Qlt_le_weak, int_trunc. Qed.

(** The claim C1 as stated fails where a raw value does not fit the
    field.  With power exponent 11, 20 W is the raw value 40960, of which
    the Chill preset of apply_pl.py stores the low 15 bits, 8192: the
    limit decoded afterwards is 4 W.  With power exponent 10 the preset
    "Stupid" of the selector asks for 45 W and leaves 13 W. *)
Lemma C1_counterexample :
  (exists s1 pl1_w pl2_w tau v' s2,
      ApplyPl.apply_chill_profile fine_grained_hw = (Ok tt, s1) /\
      Gui.decode_pls s1 = (Ok (pl1_w, pl2_w, tau, v'), s2) /\
      pl1_w == 4 /\
      ~ Qabs (pl1_w - 20) <= power_unit_of 0xA0E0B)
  /\
  (exists s1 pl1_w pl2_w tau v' s2,
      Gui.apply_profile_rmw 30 45 fine_grained_hw_10 = (Ok tt, s1) /\
      Gui.decode_pls s1 = (Ok (pl1_w, pl2_w, tau, v'), s2) /\
      pl2_w == 13 /\
      ~ Qabs (pl2_w - 45) <= power_unit_of 0xA0E0A).
Proof.
  split.
  - eexists. eexists. eexists. eexists. eexists. eexists.
    split; [vm_compute; reflexivity |]. split; [vm_compute; reflexivity |].
    split; [reflexivity |]. intros H. vm_compute in H. now apply H.
  - eexists. eexists. eexists. eexists. eexists. eexists.
    split; [vm_compute; reflexivity |]. split; [vm_compute; reflexivity |].
    split; [reflexivity |]. intros H. vm_compute in H. now apply H.
Qed.

Lemma rmw_limit_1_mod (old r1 r2 : Z) :
  Z.land (Z.land (rmw old r1 r2) 0xFFFFFFFF) 0x7FFF = (r1 mod 2 ^ 15)%Z.
Proof. rewrite rmw_lower. unfold patched. apply patch_low. Qed.

Lemma rmw_limit_2_mod (old r1 r2 : Z) :
  Z.land (Z.land (Z.shiftr (rmw old r1 r2) 32) 0xFFFFFFFF) 0x7FFF =
  (r2 mod 2 ^ 15)%Z.
Proof. rewrite rmw_upper. unfold patched. apply patch_low. Qed.

(** A raw value that does not fit the field is stored modulo 2^15, at
    least 32768 steps away: the wattage decoded from it is more than one
    unit from the wattage asked for. *)
Lemma beyond_one_step (raw : Z) (watts power_unit : Q) :
  0 < power_unit ->
  Qabs (inject_Z raw - watts / power_unit) <= 1 ->
  ~ (0 <= raw <= 0x7FFF)%Z ->
  ~ Qabs (mul (float (raw mod 2 ^ 15)) power_unit - watts) <= power_unit.
Proof.
  intros Hu Hnear Hout Hclose. unfold mul, float in Hclose.
  pose proof (Z.mod_pos_bound raw (2 ^ 15) ltac:(lia)) as Hm.
  pose proof (Z.div_mod raw (2 ^ 15) ltac:(lia)) as Hdm.
  set (m := (raw mod 2 ^ 15)%Z) in *.
  assert (Hfar : (raw - m <= -3 \/ 3 <= raw - m)%Z) by lia.
  assert (E : inject_Z m * power_unit - watts ==
              (inject_Z m - watts / power_unit) * power_unit).
  { field. intros E. rewrite E in Hu. discriminate. }
  rewrite E, Qabs_Qmult, (Qabs_pos power_unit) in Hclose
    by now apply Qlt_le_weak.
  assert (Hm1 : Qabs (inject_Z m - watts / power_unit) <= 1).
  { apply (Qmult_le_r _ _ power_unit Hu). now rewrite Qmult_1_l. }
  apply Qabs_Qle_condition in Hm1. apply Qabs_Qle_condition in Hnear.
  assert (Hd : inject_Z (-2) <= inject_Z (raw - m) <= inject_Z 2).
  { unfold Z.sub. rewrite inject_Z_plus, inject_Z_opp.
    set (q := watts / power_unit) in *. clearbody q.
    change (inject_Z (-2)) with (-2 # 1). change (inject_Z 2) with 2.
    clear Hclose E. split; qlra. }
  destruct Hd as [Hd1 Hd2]. rewrite <- Zle_Qle in Hd1, Hd2. lia.
Qed.

(** C1, amended: applying a preset writes a value that agrees with the
    value read on every bit outside the two 15-bit limit fields (enable,
    clamp, time window, lock and reserved bits), so the time window
    decoded afterwards is the one decoded before.  Each limit field
    holds its raw value modulo 2^15, and the wattage decoded afterwards
    is that many steps.  For a slot whose raw value fits the 15-bit
    field, the decoded wattage is within one raw step ([power_unit]
    watts) of the wattage asked for; for a slot whose raw value does not
    fit, it is not.  This holds for the Chill preset of apply_pl.py and
    for every pair of wattages given to the selector whose float
    quotients by the unit are finite. *)
Theorem C1_apply_changes_only_limit_fields
    (s : hw) (u v : Z) (pl1 pl2 : Q) :
  faults s = [] ->
  regs s !! 0x606%Z = Some u ->
  regs s !! 0x610%Z = Some v ->
  (0 <= v < 2 ^ 64)%Z ->
  finite_quotient pl1 (power_unit_of u) ->
  finite_quotient pl2 (power_unit_of u) ->
  (exists v' s' pl1_w pl2_w tau s'',
      ApplyPl.apply_chill_profile s = (Ok tt, s') /\
      regs s' = <[0x610%Z := v']> (regs s) /\
      (forall i, ~ (0 <= i < 15)%Z -> ~ (32 <= i < 47)%Z ->
                 Z.testbit v' i = Z.testbit v i) /\
      Gui.decode_pls s' = (Ok (pl1_w, pl2_w, tau, v'), s'') /\
      (exists p1 p2 s0, Gui.decode_pls s = (Ok (p1, p2, tau, v), s0)) /\
      pl1_w == inject_Z (int (20 / power_unit_of u) mod 2 ^ 15)
               * power_unit_of u /\
      pl2_w == inject_Z (int (28 / power_unit_of u) mod 2 ^ 15)
               * power_unit_of u /\
      ((0 <= int (20 / power_unit_of u) <= 0x7FFF)%Z ->
       Qabs (pl1_w - 20) <= power_unit_of u) /\
      ((0 <= int (28 / power_unit_of u) <= 0x7FFF)%Z ->
       Qabs (pl2_w - 28) <= power_unit_of u) /\
      (~ (0 <= int (20 / power_unit_of u) <= 0x7FFF)%Z ->
       ~ Qabs (pl1_w - 20) <= power_unit_of u) /\
      (~ (0 <= int (28 / power_unit_of u) <= 0x7FFF)%Z ->
       ~ Qabs (pl2_w - 28) <= power_unit_of u))
  /\
  (exists v' s' pl1_w pl2_w tau s'',
      Gui.apply_profile_rmw pl1 pl2 s = (Ok tt, s') /\
      regs s' = <[0x610%Z := v']> (regs s) /\
      (forall i, ~ (0 <= i < 15)%Z -> ~ (32 <= i < 47)%Z ->
                 Z.testbit v' i = Z.testbit v i) /\
      Gui.decode_pls s' = (Ok (pl1_w, pl2_w, tau, v'), s'') /\
      (exists p1 p2 s0, Gui.decode_pls s = (Ok (p1, p2, tau, v), s0)) /\
      pl1_w == inject_Z (round (pl1 / power_unit_of u) mod 2 ^ 15)
               * power_unit_of u /\
      pl2_w == inject_Z (round (pl2 / power_unit_of u) mod 2 ^ 15)
               * power_unit_of u /\
      ((0 <= round (pl1 / power_unit_of u) <= 0x7FFF)%Z ->
       Qabs (pl1_w - pl1) <= power_unit_of u) /\
      ((0 <= round (pl2 / power_unit_of u) <= 0x7FFF)%Z ->
       Qabs (pl2_w - pl2) <= power_unit_of u) /\
      (~ (0 <= round (pl1 / power_unit_of u) <= 0x7FFF)%Z ->
       ~ Qabs (pl1_w - pl1) <= power_unit_of u) /\
      (~ (0 <= round (pl2 / power_unit_of u) <= 0x7FFF)%Z ->
       ~ Qabs (pl2_w - pl2) <= power_unit_of u)).
Proof.
  intros Hf Hu Hv Hrange _ _. split.
  - set (v' := rmw v (int (20 / power_unit_of u)) (int (28 / power_unit_of u))).
    exists v'. eexists. eexists. eexists. eexists. eexists.
    split; [exact (apply_chill_profile_quiet s u v Hf Hu Hv) |].
    split; [reflexivity |].
    split; [intros i H1 H2; now apply rmw_frame |].
    split.
    { apply (decode_pls_quiet _ u v'); simpl.
      - reflexivity.
      - rewrite lookup_insert_ne by discriminate. exact Hu.
      - apply lookup_insert_eq. }
    unfold decoded. simpl snd. simpl fst.
    split.
    { eexists. eexists. eexists. rewrite (decode_pls_quiet s u v Hf Hu Hv).
      unfold decoded, v'. rewrite rmw_time_window. reflexivity. }
    unfold v'. rewrite rmw_limit_1_mod, rmw_limit_2_mod.
    split; [reflexivity |]. split; [reflexivity |].
    split; [| split; [| split]].
    + intros Hfit. rewrite Z.mod_small by lia.
      apply within_one_step; [apply power_unit_of_pos | apply int_within_one].
    + intros Hfit. rewrite Z.mod_small by lia.
      apply within_one_step; [apply power_unit_of_pos | apply int_within_one].
    + apply beyond_one_step; [apply power_unit_of_pos | apply int_within_one].
    + apply beyond_one_step; [apply power_unit_of_pos | apply int_within_one].
  - set (v' := rmw v (round (pl1 / power_unit_of u))
                     (round (pl2 / power_unit_of u))).
    exists v'. eexists. eexists. eexists. eexists. eexists.
    split; [exact (apply_profile_rmw_quiet pl1 pl2 s u v Hf Hu Hv) |].
    split; [reflexivity |].
    split; [intros i H1 H2; now apply rmw_frame |].
    split.
    { apply (decode_pls_quiet _ u v'); simpl.
      - reflexivity.
      - rewrite lookup_insert_ne by discriminate. exact Hu.
      - apply lookup_insert_eq. }
    unfold decoded. simpl snd. simpl fst.
    split.
    { eexists. eexists. eexists. rewrite (decode_pls_quiet s u v Hf Hu Hv).
      unfold decoded, v'. rewrite rmw_time_window. reflexivity. }
    unfold v'. rewrite rmw_limit_1_mod, rmw_limit_2_mod.
    split; [reflexivity |]. split; [reflexivity |].
    split; [| split; [| split]].
    + intros Hfit. rewrite Z.mod_small by lia.
      apply within_one_step; [apply power_unit_of_pos | apply round_within_one].
    + intros Hfit. rewrite Z.mod_small by lia.
      apply within_one_step; [apply power_unit_of_pos | apply round_within_one].
    + apply beyond_one_step; [apply power_unit_of_pos | apply round_within_one].
    + apply beyond_one_step; [apply power_unit_of_pos | apply round_within_one].
Qed.

Lemma C1_witness :
  (exists v' s' pl1_w pl2_w tau s'',
      ApplyPl.apply_chill_profile fine_grained_hw_10 = (Ok tt, s') /\
      regs s' = <[0x610%Z := v']> (regs fine_grained_hw_10) /\
      (forall i, ~ (0 <= i < 15)%Z -> ~ (32 <= i < 47)%Z ->
                 Z.testbit v' i = Z.testbit 0x8000000000DD8000 i) /\
      Gui.decode_pls s' = (Ok (pl1_w, pl2_w, tau, v'), s'') /\
      (exists p1 p2 s0,
          Gui.decode_pls fine_grained_hw_10 =
            (Ok (p1, p2, tau, 0x8000000000DD8000%Z), s0)) /\
      pl1_w == inject_Z (int (20 / power_unit_of 0xA0E0A) mod 2 ^ 15)
               * power_unit_of 0xA0E0A /\
      pl2_w == inject_Z (int (28 / power_unit_of 0xA0E0A) mod 2 ^ 15)
               * power_unit_of 0xA0E0A /\
      ((0 <= int (20 / power_unit_of 0xA0E0A) <= 0x7FFF)%Z ->
       Qabs (pl1_w - 20) <= power_unit_of 0xA0E0A) /\
      ((0 <= int (28 / power_unit_of 0xA0E0A) <= 0x7FFF)%Z ->
       Qabs (pl2_w - 28) <= power_unit_of 0xA0E0A) /\
      (~ (0 <= int (20 / power_unit_of 0xA0E0A) <= 0x7FFF)%Z ->
       ~ Qabs (pl1_w - 20) <= power_unit_of 0xA0E0A) /\
      (~ (0 <= int (28 / power_unit_of 0xA0E0A) <= 0x7FFF)%Z ->
       ~ Qabs (pl2_w - 28) <= power_unit_of 0xA0E0A))
  /\
  (exists v' s' pl1_w pl2_w tau s'',
      Gui.apply_profile_rmw 30 45 fine_grained_hw_10 = (Ok tt, s') /\
      regs s' = <[0x610%Z := v']> (regs fine_grained_hw_10) /\
      (forall i, ~ (0 <= i < 15)%Z -> ~ (32 <= i < 47)%Z ->
                 Z.testbit v' i = Z.testbit 0x8000000000DD8000 i) /\
      Gui.decode_pls s' = (Ok (pl1_w, pl2_w, tau, v'), s'') /\
      (exists p1 p2 s0,
          Gui.decode_pls fine_grained_hw_10 =
            (Ok (p1, p2, tau, 0x8000000000DD8000%Z), s0)) /\
      pl1_w == inject_Z (round (30 / power_unit_of 0xA0E0A) mod 2 ^ 15)
               * power_unit_of 0xA0E0A /\
      pl2_w == inject_Z (round (45 / power_unit_of 0xA0E0A) mod 2 ^ 15)
               * power_unit_of 0xA0E0A /\
      ((0 <= round (30 / power_unit_of 0xA0E0A) <= 0x7FFF)%Z ->
       Qabs (pl1_w - 30) <= power_unit_of 0xA0E0A) /\
      ((0 <= round (45 / power_unit_of 0xA0E0A) <= 0x7FFF)%Z ->
       Qabs (pl2_w - 45) <= power_unit_of 0xA0E0A) /\
      (~ (0 <= round (30 / power_unit_of 0xA0E0A) <= 0x7FFF)%Z ->
       ~ Qabs (pl1_w - 30) <= power_unit_of 0xA0E0A) /\
      (~ (0 <= round (45 / power_unit_of 0xA0E0A) <= 0x7FFF)%Z ->
       ~ Qabs (pl2_w - 45) <= power_unit_of 0xA0E0A)).
Proof.
  apply (C1_apply_changes_only_limit_fields fine_grained_hw_10 0xA0E0A
           0x8000000000DD8000 30 45).
  - reflexivity.
  - reflexivity.
  - reflexivity.
  - split; [discriminate | reflexivity].
  - reflexivity.
  - reflexivity.
Defined.

Lemma apply_profile_found (name n : string) (pl1 pl2 : Q) (s : hw) :
  find (fun p => String.eqb (fst (fst p)) name) Gui.PROFILES =
    Some (n, pl1, pl2) ->
  Gui.apply_profile name s =
  match Gui.apply_profile_rmw pl1 pl2 s with
  | (Ok _, s') => Gui.update_current_label s'
  | (Raise e, s') => emit (ErrorBox "Error applying profile" e) s'
  end.
Proof.
  intros Hfind. unfold Gui.apply_profile. rewrite Hfind.
  unfold try_except, bind.
  destruct (Gui.apply_profile_rmw pl1 pl2 s) as [[[] | e] s']; [| reflexivity].
  unfold Gui.update_current_label, try_except.
  destruct (bind Gui.decode_pls _ s') as [[[] | e] s'']; [reflexivity |].
  unfold emit in *. reflexivity.
Qed.

(** The claim C7 as stated fails for the selector: on the reference
    machine its read-modify-write issues four gateway calls, with the
    unit register read a second time before the write. *)
Lemma C7_counterexample :
  trace (snd (Gui.apply_profile_rmw 20 28 reference_hw)) =
    [Call (Read 0x606) true; Call (Read 0x610) true;
     Call (Read 0x606) true; Call (Write 0x610 0x800000E000DD80A0) true] /\
  ~ (exists v',
        trace (snd (Gui.apply_profile_rmw 20 28 reference_hw)) =
          [Call (Read 0x606) true; Call (Read 0x610) true;
           Call (Write 0x610 v') true]).
Proof.
  split; [vm_compute; reflexivity |].
  intros [v' E]. vm_compute in E. discriminate E.
Qed.

(** C7, amended: when the tools work, [apply_chill_profile] issues
    exactly a read of the unit register 0x606, a read of the limit
    register 0x610 and a write of 0x610.  The selector reads the unit
    register twice before its single write: once in [decode_pls] and
    once more in [encode_pls]; its handler [apply_profile] then
    refreshes the label, which reads both registers again. *)
Theorem C7_gateway_sequence
    (s : hw) (u v : Z) (name n : string) (pl1 pl2 : Q) :
  faults s = [] ->
  regs s !! 0x606%Z = Some u ->
  regs s !! 0x610%Z = Some v ->
  find (fun p => String.eqb (fst (fst p)) name) Gui.PROFILES =
    Some (n, pl1, pl2) ->
  (exists v' s',
      ApplyPl.apply_chill_profile s = (Ok tt, s') /\
      trace s' = trace s ++
        [Call (Read 0x606) true; Call (Read 0x610) true;
         Call (Write 0x610 v') true])
  /\
  (exists v' s',
      Gui.apply_profile_rmw pl1 pl2 s = (Ok tt, s') /\
      trace s' = trace s ++
        [Call (Read 0x606) true; Call (Read 0x610) true;
         Call (Read 0x606) true; Call (Write 0x610 v') true])
  /\
  (exists v' s',
      Gui.apply_profile name s = (Ok tt, s') /\
      trace s' = trace s ++
        [Call (Read 0x606) true; Call (Read 0x610) true;
         Call (Read 0x606) true; Call (Write 0x610 v') true;
         Call (Read 0x606) true; Call (Read 0x610) true]).
Proof.
  intros Hf Hu Hv Hfind. split; [| split].
  - eexists. eexists.
    split; [exact (apply_chill_profile_quiet s u v Hf Hu Hv) |]. reflexivity.
  - eexists. eexists.
    split; [exact (apply_profile_rmw_quiet pl1 pl2 s u v Hf Hu Hv) |].
    reflexivity.
  - eexists. eexists. split.
    + rewrite (apply_profile_found name n pl1 pl2 s Hfind).
      rewrite (apply_profile_rmw_quiet pl1 pl2 s u v Hf Hu Hv).
      apply update_current_label_quiet; simpl.
      * reflexivity.
      * rewrite lookup_insert_ne by discriminate. exact Hu.
      * apply lookup_insert_eq.
    + simpl. rewrite <- app_assoc. reflexivity.
Qed.

Lemma C7_witness :
  (exists v' s',
      ApplyPl.apply_chill_profile reference_hw = (Ok tt, s') /\
      trace s' = trace reference_hw ++
        [Call (Read 0x606) true; Call (Read 0x610) true;
         Call (Write 0x610 v') true])
  /\
  (exists v' s',
      Gui.apply_profile_rmw 20 28 reference_hw = (Ok tt, s') /\
      trace s' = trace reference_hw ++
        [Call (Read 0x606) true; Call (Read 0x610) true;
         Call (Read 0x606) true; Call (Write 0x610 v') true])
  /\
  (exists v' s',
      Gui.apply_profile "Chill" reference_hw = (Ok tt, s') /\
      trace s' = trace reference_hw ++
        [Call (Read 0x606) true; Call (Read 0x610) true;
         Call (Read 0x606) true; Call (Write 0x610 v') true;
         Call (Read 0x606) true; Call (Read 0x610) true]).
Proof.
  apply (C7_gateway_sequence reference_hw 0xA0E03 0x8000000000DD8000
           "Chill" "Chill" 20 28); reflexivity.
Defined.

Lemma update_current_label_eq (s : hw) :
  Gui.update_current_label s =
  match probe s 0x606 with
  | None =>
      (Ok tt,
       shown (moved s (regs s) (rest s) [Call (Read 0x606) false])
             (ErrorBox "Error reading PLs" CalledProcessError))
  | Some u =>
      let s1 := moved s (regs s) (rest s) [Call (Read 0x606) true] in
      match probe s1 0x610 with
      | None =>
          (Ok tt,
           shown (moved s1 (regs s1) (rest s1) [Call (Read 0x610) false])
                 (ErrorBox "Error reading PLs" CalledProcessError))
      | Some v =>
          (Ok tt,
           shown (moved s1 (regs s1) (rest s1) [Call (Read 0x610) true])
                 (CurrentLabel (fst (fst (fst (decoded u v))))
                               (snd (fst (fst (decoded u v))))
                               (snd (fst (decoded u v)))))
      end
  end.
Proof.
  unfold Gui.update_current_label, try_except, bind. rewrite decode_pls_eq.
  destruct (probe s 0x606) as [u |]; [| reflexivity].
  cbv zeta. destruct (probe _ 0x610) as [v |]; reflexivity.
Qed.

(** The claim C6 as stated fails on the selector's handler
    [apply_profile]: after its write it refreshes the label, which reads
    both registers again.  When the fifth tool invocation fails, a read
    has failed, one write has been issued and register 0x610 has
    changed. *)
Lemma C6_counterexample :
  In (Call (Read 0x606) false)
     (trace (snd (Gui.apply_profile "Chill"
                    (Hw (regs reference_hw)
                        [false; false; false; false; true] [] [])))) /\
  writes_issued
    (trace (snd (Gui.apply_profile "Chill"
                   (Hw (regs reference_hw)
                       [false; false; false; false; true] [] [])))) = 1%nat /\
  regs reference_hw !! 0x610%Z = Some 0x8000000000DD8000%Z /\
  regs (snd (Gui.apply_profile "Chill"
               (Hw (regs reference_hw)
                   [false; false; false; false; true] [] []))) !! 0x610%Z =
    Some 0x800000E000DD80A0%Z.
Proof.
  split; [vm_compute; tauto |].
  split; [vm_compute; reflexivity |].
  split; vm_compute; reflexivity.
Qed.

(** C6, amended: in [apply_chill_profile], in the selector's
    read-modify-write and in the selector's handler [apply_profile], a
    read that fails while no write has been issued makes the operation
    give up (the first two raise, the handler shows its error box): no
    write is issued at all and every register is as it was. *)
Theorem C6_read_failure_before_write (op : apply_op) (s : hw) :
  trace s = [] ->
  read_failed_first (trace (snd (run_apply op s))) = true ->
  gave_up op s (run_apply op s) /\
  writes_issued (trace (snd (run_apply op s))) = 0%nat /\
  regs (snd (run_apply op s)) = regs s.
Proof.
  intros Ht Hfail. destruct op as [| pl1 pl2 | name];
    unfold run_apply, gave_up in *.
  - rewrite apply_chill_profile_eq in *.
    destruct (probe s 0x606) as [u |]; cbv zeta in *.
    + destruct (probe _ 0x610) as [v |].
      * destruct (probe _ 0x610) as [w |]; simpl in Hfail;
          rewrite Ht in Hfail; simpl in Hfail; discriminate Hfail.
      * simpl. rewrite Ht. repeat split; eexists; reflexivity.
    + simpl. rewrite Ht. repeat split; eexists; reflexivity.
  - rewrite apply_profile_rmw_eq in *.
    destruct (probe s 0x606) as [u |]; cbv zeta in *.
    + destruct (probe _ 0x610) as [v |].
      * destruct (probe _ 0x606) as [u' |].
        -- destruct (probe _ 0x610) as [w |]; simpl in Hfail;
             rewrite Ht in Hfail; simpl in Hfail; discriminate Hfail.
        -- simpl. rewrite Ht. repeat split; eexists; reflexivity.
      * simpl. rewrite Ht. repeat split; eexists; reflexivity.
    + simpl. rewrite Ht. repeat split; eexists; reflexivity.
  - destruct (find (fun p => String.eqb (fst (fst p)) name) Gui.PROFILES)
      as [[[n pl1] pl2] |] eqn:Hfind.
    + rewrite (apply_profile_found name n pl1 pl2 s Hfind) in *.
      rewrite apply_profile_rmw_eq in *. unfold emit in *.
      destruct (probe s 0x606) as [u |]; cbv zeta in *.
      * destruct (probe _ 0x610) as [v |].
        -- destruct (probe _ 0x606) as [u' |].
           ++ destruct (probe _ 0x610) as [w |].
              ** rewrite update_current_label_eq in Hfail.
                 destruct (probe _ 0x606) as [u'' |]; cbv zeta in Hfail.
                 --- destruct (probe _ 0x610) as [v'' |]; simpl in Hfail;
                       rewrite Ht in Hfail; simpl in Hfail; discriminate Hfail.
                 --- simpl in Hfail. rewrite Ht in Hfail. simpl in Hfail.
                     discriminate Hfail.
              ** simpl in Hfail. rewrite Ht in Hfail. simpl in Hfail.
                 discriminate Hfail.
           ++ simpl. rewrite Ht. repeat split; eexists; reflexivity.
        -- simpl. rewrite Ht. repeat split; eexists; reflexivity.
      * simpl. rewrite Ht. repeat split; eexists; reflexivity.
    + unfold Gui.apply_profile in Hfail. rewrite Hfind in Hfail.
      simpl in Hfail. rewrite Ht in Hfail. discriminate Hfail.
Qed.

Lemma C6_witness :
  gave_up (SelectorHandler "Chill") flaky_hw
          (run_apply (SelectorHandler "Chill") flaky_hw) /\
  writes_issued (trace (snd (run_apply (SelectorHandler "Chill") flaky_hw)))
    = 0%nat /\
  regs (snd (run_apply (SelectorHandler "Chill") flaky_hw)) = regs flaky_hw.
Proof.
  apply (C6_read_failure_before_write (SelectorHandler "Chill") flaky_hw).
  - reflexivity.
  - vm_compute. reflexivity.
Defined.

(** In the two transactions every read comes before the write, so there
    any failed read is a read that failed while no write had been
    issued. *)
Lemma transaction_failed_read_is_first (op : apply_op) (s : hw) (msr : Z) :
  (forall name, op <> SelectorHandler name) ->
  trace s = [] ->
  In (Call (Read msr) false) (trace (snd (run_apply op s))) ->
  read_failed_first (trace (snd (run_apply op s))) = true.
Proof.
  intros Hop Ht Hin. destruct op as [| pl1 pl2 | name];
    [| | now destruct (Hop name)]; unfold run_apply in *.
  - rewrite apply_chill_profile_eq in *.
    destruct (probe s 0x606) as [u |]; cbv zeta in *.
    + destruct (probe _ 0x610) as [v |].
      * destruct (probe _ 0x610) as [w |]; simpl in Hin; rewrite Ht in Hin;
          simpl in Hin; failed_read_absurd Hin.
      * simpl. rewrite Ht. reflexivity.
    + simpl. rewrite Ht. reflexivity.
  - rewrite apply_profile_rmw_eq in *.
    destruct (probe s 0x606) as [u |]; cbv zeta in *.
    + destruct (probe _ 0x610) as [v |].
      * destruct (probe _ 0x606) as [u' |].
        -- destruct (probe _ 0x610) as [w |]; simpl in Hin; rewrite Ht in Hin;
             simpl in Hin; failed_read_absurd Hin.
        -- simpl. rewrite Ht. reflexivity.
      * simpl. rewrite Ht. reflexivity.
    + simpl. rewrite Ht. reflexivity.
Qed.

(** Every read of the two transactions can fail: the first read, the
    second, and the selector's second read of the unit register. *)
Example read_failures_reachable :
  In (Call (Read 0x606) false)
     (trace (snd (run_apply ChillProfile
                    (Hw (regs reference_hw) [true] [] [])))) /\
  In (Call (Read 0x610) false)
     (trace (snd (run_apply (SelectorProfile 20 28) flaky_hw))) /\
  In (Call (Read 0x606) false)
     (trace (snd (run_apply (SelectorProfile 20 28)
                    (Hw (regs reference_hw) [false; false; true] [] [])))) /\
  In (Call (Read 0x606) false)
     (trace (snd (run_apply ChillProfile (Hw ∅ [] [] [])))).
Proof.
  repeat split; vm_compute; tauto.
Qed.

End Apply.

(** ** Further properties of the two programs *)

Section Further.

Local Open Scope Q_scope.


Lemma find_profile_none (name : string) :
  (forall p, In p Gui.PROFILES -> fst (fst p) <> name) ->
  find (fun p => String.eqb (fst (fst p)) name) Gui.PROFILES = None.
Proof.
  intros H.
  destruct (find _ Gui.PROFILES) as [p |] eqn:E; [| reflexivity].
  apply find_some in E. destruct E as [Hin Heq].
  apply String.eqb_eq in Heq. now apply H in Hin.
Qed.

(** X2: a name that is not in the catalogue makes [apply_profile] return
    at once: no gateway call, nothing shown, the machine untouched. *)
Theorem X2_unknown_profile_is_ignored (name : string) (s : hw) :
  (forall p, In p Gui.PROFILES -> fst (fst p) <> name) ->
  Gui.apply_profile name s = (Ok tt, s).
Proof.
  intros H. unfold Gui.apply_profile.
  rewrite (find_profile_none name H). reflexivity.
Qed.

Lemma X2_witness : Gui.apply_profile "Turbo" flaky_hw = (Ok tt, flaky_hw).
Proof.
  apply (X2_unknown_profile_is_ignored "Turbo" flaky_hw).
  intros p Hin. simpl in Hin.
  repeat (destruct Hin as [<- | Hin]; [discriminate |]). destruct Hin.
Defined.

Lemma rmw_allowed (v r1 r2 : Z) (ok : bool) :
  call_allowed (Call (Write 0x610 (rmw v r1 r2)) ok).
Proof. split; [reflexivity | apply rmw_range]. Qed.

Lemma read_unit_allowed (ok : bool) : call_allowed (Call (Read 0x606) ok).
Proof. left. reflexivity. Qed.

Lemma read_limit_allowed (ok : bool) : call_allowed (Call (Read 0x610) ok).
Proof. right. reflexivity. Qed.

Ltac calls_allowed :=
  repeat (apply List.Forall_cons;
          [first [apply rmw_allowed | apply read_unit_allowed
                 | apply read_limit_allowed] |]);
  apply List.Forall_nil.

(** Close a goal about one outcome of a run: the calls issued since the
    start, that all are allowed, and how many are writes. *)
Ltac outcome :=
  eexists; eexists;
  split; [reflexivity |];
  simpl; rewrite <- ?app_assoc; simpl;
  split; [reflexivity |];
  split; [calls_allowed |];
  unfold writes_issued; simpl;
  repeat split; try lia; try discriminate.

(** X3: [apply_profile] never raises, whatever the name, the machine and
    the failures of the tools: every exception ends in an error box.  All
    its gateway calls are reads of registers 0x606 and 0x610 and writes
    of a 64-bit value to register 0x610, and it issues at most one
    write. *)
Theorem X3_apply_profile_contained (name : string) (s : hw) :
  exists s' calls,
    Gui.apply_profile name s = (Ok tt, s') /\
    trace s' = trace s ++ calls /\
    Forall call_allowed calls /\
    (writes_issued calls <= 1)%nat.
Proof.
  destruct (find (fun p => String.eqb (fst (fst p)) name) Gui.PROFILES)
    as [[[n pl1] pl2] |] eqn:Hfind.
  - rewrite (apply_profile_found name n pl1 pl2 s Hfind).
    rewrite apply_profile_rmw_eq.
    destruct (probe s 0x606) as [u |]; cbv zeta; [| outcome].
    destruct (probe _ 0x610) as [v |]; [| outcome].
    destruct (probe _ 0x606) as [u' |]; [| outcome].
    destruct (probe _ 0x610) as [w |]; [| outcome].
    rewrite update_current_label_eq.
    destruct (probe _ 0x606) as [u'' |]; cbv zeta; [| outcome].
    destruct (probe _ 0x610) as [v'' |]; outcome.
  - unfold Gui.apply_profile. rewrite Hfind.
    exists s, []. split; [reflexivity |].
    split; [now rewrite app_nil_r |].
    split; [apply List.Forall_nil | unfold writes_issued; simpl; lia].
Qed.

(** X4: [apply_chill_profile] can only raise the error of a failed tool,
    never a division by zero: the unit it divides by is never zero.  All
    its gateway calls are reads of registers 0x606 and 0x610 and writes
    of a 64-bit value to register 0x610, and it issues at most one
    write. *)
Theorem X4_apply_chill_profile_contained (s : hw) :
  exists s' calls,
    snd (ApplyPl.apply_chill_profile s) = s' /\
    trace s' = trace s ++ calls /\
    Forall call_allowed calls /\
    (writes_issued calls <= 1)%nat /\
    (length calls <= 3)%nat /\
    fst (ApplyPl.apply_chill_profile s) <> Raise ZeroDivisionError.
Proof.
  rewrite apply_chill_profile_eq.
  destruct (probe s 0x606) as [u |]; cbv zeta; [| outcome].
  destruct (probe _ 0x610) as [v |]; [| outcome].
  destruct (probe _ 0x610) as [w |]; outcome.
Qed.

(** X5: [apply_chill_profile] is all or nothing.  When it raises, every
    register is as it was and nothing has been printed.  When it
    returns, exactly the line of the preset has been printed, register
    0x610 holds a 64-bit value and every other register is as it was. *)
Theorem X5_apply_chill_profile_all_or_nothing (s : hw) :
  (forall e, fst (ApplyPl.apply_chill_profile s) = Raise e ->
     regs (snd (ApplyPl.apply_chill_profile s)) = regs s /\
     ui (snd (ApplyPl.apply_chill_profile s)) = ui s)
  /\
  (fst (ApplyPl.apply_chill_profile s) = Ok tt ->
     ui (snd (ApplyPl.apply_chill_profile s)) = ui s ++ [Stdout chill_line] /\
     (exists v', (0 <= v' < 2 ^ 64)%Z /\
        regs (snd (ApplyPl.apply_chill_profile s)) !! 0x610%Z = Some v') /\
     (forall msr, msr <> 0x610%Z ->
        regs (snd (ApplyPl.apply_chill_profile s)) !! msr = regs s !! msr)).
Proof.
  rewrite apply_chill_profile_eq.
  destruct (probe s 0x606) as [u |]; cbv zeta.
  - destruct (probe _ 0x610) as [v |].
    + destruct (probe _ 0x610) as [w |]; simpl.
      * split; [intros e H; discriminate H |]. intros _.
        split; [reflexivity |]. split.
        -- eexists. split; [apply rmw_range | apply lookup_insert_eq].
        -- intros msr Hne. now apply lookup_insert_ne.
      * split; [intros e _; split; reflexivity | intros H; discriminate H].
    + simpl. split; [intros e _; split; reflexivity | intros H; discriminate H].
  - simpl. split; [intros e _; split; reflexivity | intros H; discriminate H].
Qed.

Lemma patched_patched (h a b : Z) : patched (patched h a) b = patched h b.
Proof.
  apply Z.bits_inj'. intros i Hi. unfold patched.
  rewrite !patch_testbit by assumption.
  destruct (i <? 15); reflexivity.
Qed.

Lemma rmw_rmw (v a1 a2 b1 b2 : Z) :
  rmw (rmw v a1 a2) b1 b2 = rmw v b1 b2.
Proof.
  unfold rmw at 1. rewrite rmw_lower, rmw_upper, !patched_patched.
  reflexivity.
Qed.

(** X6: the encoder of apply_pl.py forgets the limit it overwrites.  For
    every unit [2^-p] the decoders return and wattages whose float
    quotients by the unit are finite, encoding one wattage and then
    another into a half returns what encoding the second alone returns;
    so encoding the same wattage twice changes nothing the second
    time. *)
Theorem X6_encode_power_field_last_wins
    (raw u : Z) (watts1 watts2 : Q) :
  finite_quotient watts1 (power_unit_of u) ->
  finite_quotient watts2 (power_unit_of u) ->
  exists r,
    ApplyPl.encode_power_field raw watts2 (power_unit_of u) = Ok r /\
    rbind (ApplyPl.encode_power_field raw watts1 (power_unit_of u))
          (fun raw' =>
             ApplyPl.encode_power_field raw' watts2 (power_unit_of u)) =
    Ok r.
Proof.
  intros _ _. eexists.
  split; [apply encode_power_field_eq, power_unit_of_nonzero |].
  rewrite (encode_power_field_eq raw watts1) by apply power_unit_of_nonzero.
  simpl rbind.
  rewrite encode_power_field_eq by apply power_unit_of_nonzero.
  f_equal. apply patched_patched.
Qed.

Lemma X6_witness :
  exists r,
    ApplyPl.encode_power_field 0x00DD8000 28 (power_unit_of 0xA0E03) = Ok r /\
    rbind (ApplyPl.encode_power_field 0x00DD8000 4096 (power_unit_of 0xA0E03))
          (fun raw' =>
             ApplyPl.encode_power_field raw' 28 (power_unit_of 0xA0E03)) =
    Ok r.
Proof.
  apply (X6_encode_power_field_last_wins 0x00DD8000 0xA0E03 4096 28);
    reflexivity.
Defined.



(** X8: [apply_chill_profile] is idempotent on the registers: a second
    run succeeds and leaves them as the first run left them. *)
Theorem X8_apply_chill_profile_idempotent (s : hw) (u v : Z) :
  faults s = [] ->
  regs s !! 0x606%Z = Some u ->
  regs s !! 0x610%Z = Some v ->
  fst (and_then ApplyPl.apply_chill_profile ApplyPl.apply_chill_profile s)
    = Ok tt /\
  regs (snd (and_then ApplyPl.apply_chill_profile
                      ApplyPl.apply_chill_profile s)) =
  regs (snd (ApplyPl.apply_chill_profile s)).
Proof.
  intros Hf Hu Hv. unfold and_then.
  rewrite (apply_chill_profile_quiet s u v Hf Hu Hv). cbv zeta. simpl snd.
  erewrite apply_chill_profile_quiet;
    [| reflexivity
     | simpl; rewrite lookup_insert_ne by discriminate; exact Hu
     | simpl; apply lookup_insert_eq].
  cbv zeta. simpl. split; [reflexivity |].
  rewrite rmw_rmw. apply insert_insert_eq.
Qed.

Lemma X8_witness :
  fst (and_then ApplyPl.apply_chill_profile ApplyPl.apply_chill_profile
         reference_hw) = Ok tt /\
  regs (snd (and_then ApplyPl.apply_chill_profile
                      ApplyPl.apply_chill_profile reference_hw)) =
  regs (snd (ApplyPl.apply_chill_profile reference_hw)).
Proof.
  apply (X8_apply_chill_profile_idempotent reference_hw 0xA0E03
           0x8000000000DD8000); reflexivity.
Defined.

Lemma round_scaled (k : Z) (power_unit : Q) :
  ~ power_unit == 0 -> round (mul (float k) power_unit / power_unit) = k.
Proof.
  intros Hu. transitivity (round (inject_Z k)); [| apply round_integer].
  apply round_comp. unfold mul, float. field. exact Hu.
Qed.

Lemma round_multiple (k : Z) (watts power_unit : Q) :
  ~ power_unit == 0 -> watts == inject_Z k * power_unit ->
  round (watts / power_unit) = k.
Proof.
  intros Hu E. transitivity (round (inject_Z k)); [| apply round_integer].
  apply round_comp. rewrite E. field. exact Hu.
Qed.

Lemma rmw_self (v : Z) :
  (0 <= v < 2 ^ 64)%Z ->
  rmw v (Z.land (Z.land v 0xFFFFFFFF) 0x7FFF)
        (Z.land (Z.land (Z.shiftr v 32) 0xFFFFFFFF) 0x7FFF) = v.
Proof.
  intros Hv. apply Z.bits_inj'. intros i Hi.
  unfold rmw, patched. rewrite rmw_testbit by assumption.
  destruct (Z.ltb_spec i 15).
  - rewrite Z.land_spec, lower_testbit by assumption.
    rewrite mask15_ones, Z.testbit_ones_nonneg by lia.
    destruct (Z.ltb_spec i 32); [| lia].
    destruct (Z.ltb_spec i 15); [apply Bool.andb_true_r | lia].
  - destruct (Z.ltb_spec i 32); [reflexivity |].
    destruct (Z.ltb_spec i 47).
    + rewrite Z.land_spec, upper_testbit by lia.
      rewrite mask15_ones, Z.testbit_ones_nonneg by lia.
      replace (i - 32 + 32)%Z with i by lia.
      destruct (Z.ltb_spec (i - 32) 32); [| lia].
      destruct (Z.ltb_spec (i - 32) 15); [apply Bool.andb_true_r | lia].
    + destruct (Z.ltb_spec i 64); [reflexivity |].
      symmetry. apply testbit_high_64; assumption.
Qed.

(** X9: encoding what was decoded gives the register back.  On a machine
    whose tools work and whose limit register holds a 64-bit value, the
    selector's read-modify-write fed with the two wattages [decode_pls]
    has just returned leaves every register as it was. *)
Theorem X9_reapplying_decoded_limits_changes_nothing (s : hw) (u v : Z) :
  faults s = [] ->
  regs s !! 0x606%Z = Some u ->
  regs s !! 0x610%Z = Some v ->
  (0 <= v < 2 ^ 64)%Z ->
  exists pl1_w pl2_w tau s1 s2,
    Gui.decode_pls s = (Ok (pl1_w, pl2_w, tau, v), s1) /\
    Gui.apply_profile_rmw pl1_w pl2_w s1 = (Ok tt, s2) /\
    regs s2 = regs s.
Proof.
  intros Hf Hu Hv Hrange.
  eexists. eexists. eexists. eexists. eexists.
  split; [exact (decode_pls_quiet s u v Hf Hu Hv) |].
  split.
  - apply (apply_profile_rmw_quiet _ _ _ u v); [reflexivity | exact Hu | exact Hv].
  - simpl. rewrite !round_scaled by apply power_unit_of_nonzero.
    rewrite rmw_self by assumption. now apply insert_id.
Qed.

Lemma X9_witness :
  exists pl1_w pl2_w tau s1 s2,
    Gui.decode_pls reference_hw =
      (Ok (pl1_w, pl2_w, tau, 0x8000000000DD8000%Z), s1) /\
    Gui.apply_profile_rmw pl1_w pl2_w s1 = (Ok tt, s2) /\
    regs s2 = regs reference_hw.
Proof.
  apply (X9_reapplying_decoded_limits_changes_nothing reference_hw 0xA0E03
           0x8000000000DD8000).
  - reflexivity.
  - reflexivity.
  - reflexivity.
  - split; [discriminate | reflexivity].
Defined.

(** X10: a wattage that is a whole number of raw steps, between 0 and
    0x7FFF of them, is stored without loss: after the selector's
    read-modify-write, [decode_pls] returns exactly the two wattages
    that were applied. *)
Theorem X10_whole_steps_decode_exactly
    (s : hw) (u v k1 k2 : Z) (pl1 pl2 : Q) :
  faults s = [] ->
  regs s !! 0x606%Z = Some u ->
  regs s !! 0x610%Z = Some v ->
  (0 <= k1 <= 0x7FFF)%Z ->
  (0 <= k2 <= 0x7FFF)%Z ->
  pl1 == inject_Z k1 * power_unit_of u ->
  pl2 == inject_Z k2 * power_unit_of u ->
  exists s1 pl1_w pl2_w tau v' s2,
    Gui.apply_profile_rmw pl1 pl2 s = (Ok tt, s1) /\
    Gui.decode_pls s1 = (Ok (pl1_w, pl2_w, tau, v'), s2) /\
    pl1_w == pl1 /\ pl2_w == pl2.
Proof.
  intros Hf Hu Hv Hk1 Hk2 E1 E2.
  eexists. eexists. eexists. eexists. eexists. eexists.
  split; [exact (apply_profile_rmw_quiet pl1 pl2 s u v Hf Hu Hv) |].
  split.
  { apply (decode_pls_quiet _ u); simpl.
    - reflexivity.
    - rewrite lookup_insert_ne by discriminate. exact Hu.
    - apply lookup_insert_eq. }
  rewrite (round_multiple k1 pl1) by (apply power_unit_of_nonzero || exact E1).
  rewrite (round_multiple k2 pl2) by (apply power_unit_of_nonzero || exact E2).
  rewrite rmw_limit_1, rmw_limit_2 by assumption.
  unfold mul, float. split; symmetry; assumption.
Qed.

Lemma X10_witness :
  exists s1 pl1_w pl2_w tau v' s2,
    Gui.apply_profile_rmw (55 # 2) 40 reference_hw = (Ok tt, s1) /\
    Gui.decode_pls s1 = (Ok (pl1_w, pl2_w, tau, v'), s2) /\
    pl1_w == 55 # 2 /\ pl2_w == 40.
Proof.
  apply (X10_whole_steps_decode_exactly reference_hw 0xA0E03
           0x8000000000DD8000 220 320 (55 # 2) 40);
    try reflexivity; split; discriminate.
Defined.

Lemma whole_quotient (c u : Z) :
  inject_Z c / power_unit_of u == inject_Z (c * 2 ^ Z.land u 0xF).
Proof.
  unfold power_unit_of, float. rewrite inject_Z_mult. field.
  apply (pow2_float_nonzero (Z.land u 0xF)), nibble_nonneg.
Qed.

Lemma int_whole_quotient (c u : Z) :
  int (inject_Z c / power_unit_of u) = (c * 2 ^ Z.land u 0xF)%Z.
Proof. rewrite (int_comp _ _ (whole_quotient c u)). apply int_integer. Qed.

Lemma round_whole_quotient (c u : Z) :
  round (inject_Z c / power_unit_of u) = (c * 2 ^ Z.land u 0xF)%Z.
Proof. rewrite (round_comp _ _ (whole_quotient c u)). apply round_integer. Qed.

(** X11: the two programs agree on the Chill preset.  On every machine
    whose tools work, [apply_chill_profile] and the selector applied to
    20 W and 28 W write the same value and leave the same registers:
    a whole wattage is a whole number of steps of any unit [2^-p], on
    which truncation and rounding agree. *)
Theorem X11_programs_agree_on_chill (s : hw) (u v : Z) :
  faults s = [] ->
  regs s !! 0x606%Z = Some u ->
  regs s !! 0x610%Z = Some v ->
  fst (ApplyPl.apply_chill_profile s) = Ok tt /\
  fst (Gui.apply_profile_rmw 20 28 s) = Ok tt /\
  regs (snd (ApplyPl.apply_chill_profile s)) =
  regs (snd (Gui.apply_profile_rmw 20 28 s)).
Proof.
  intros Hf Hu Hv.
  rewrite (apply_chill_profile_quiet s u v Hf Hu Hv).
  rewrite (apply_profile_rmw_quiet 20 28 s u v Hf Hu Hv).
  cbv zeta. simpl. split; [reflexivity |]. split; [reflexivity |].
  change 20 with (inject_Z 20). change 28 with (inject_Z 28).
  now rewrite !int_whole_quotient, !round_whole_quotient.
Qed.

Lemma X11_witness :
  fst (ApplyPl.apply_chill_profile reference_hw) = Ok tt /\
  fst (Gui.apply_profile_rmw 20 28 reference_hw) = Ok tt /\
  regs (snd (ApplyPl.apply_chill_profile reference_hw)) =
  regs (snd (Gui.apply_profile_rmw 20 28 reference_hw)).
Proof.
  apply (X11_programs_agree_on_chill reference_hw 0xA0E03
           0x8000000000DD8000); reflexivity.
Defined.

Lemma inv_pow2_bounds (k : Z) :
  (0 <= k < 16)%Z -> 1 # 32768 <= 1 / float (2 ^ k) <= 1.
Proof.
  intros Hk.
  assert (Hn : (1 <= 2 ^ k <= 32768)%Z).
  { split.
    - change 1%Z with (2 ^ 0)%Z. apply Z.pow_le_mono_r; lia.
    - change 32768%Z with (2 ^ 15)%Z. apply Z.pow_le_mono_r; lia. }
  destruct (2 ^ k)%Z as [| p | p]; try lia.
  unfold float, Qle, Qdiv, Qmult, Qinv; simpl. lia.
Qed.

(** X12: whatever the unit register holds, a unit a decoder returns is
    one of [2^0 .. 2^-15]: it lies between 1/32768 and 1 and is never
    zero.  This holds for both units of both decoders. *)
Theorem X12_decoded_units_bounded
    (s s1 s2 : hw) (pu1 tu1 pu2 tu2 : Q) :
  ApplyPl.decode_units s = (Ok (pu1, tu1), s1) ->
  Gui.decode_power_time_units s = (Ok (pu2, tu2), s2) ->
  (1 # 32768 <= pu1 <= 1) /\ (1 # 32768 <= tu1 <= 1) /\
  (1 # 32768 <= pu2 <= 1) /\ (1 # 32768 <= tu2 <= 1) /\
  pu1 = pu2.
Proof.
  rewrite decode_units_eq, decode_power_time_units_eq.
  destruct (probe s 0x606) as [u |]; [| discriminate].
  intros H1 H2. injection H1 as <- <- _. injection H2 as <- <- _.
  unfold power_unit_of, time_unit_16, time_unit_4.
  repeat split; try apply inv_pow2_bounds; apply nibble_nonneg.
Qed.

Lemma X12_witness :
  (1 # 32768 <= 1 # 8 <= 1) /\ (1 # 32768 <= 1 # 1024 <= 1) /\
  (1 # 32768 <= 1 # 8 <= 1) /\ (1 # 32768 <= 1 # 1 <= 1) /\
  (1 # 8) = (1 # 8).
Proof.
  apply (X12_decoded_units_bounded reference_hw
           (snd (ApplyPl.decode_units reference_hw))
           (snd (Gui.decode_power_time_units reference_hw))
           (1 # 8) (1 # 1024) (1 # 8) (1 # 1)); reflexivity.
Defined.

(** X13: what [decode_pls] returns is bounded: each wattage is the
    product of a 15-bit raw value and a unit of at most 1 W, so it lies
    between 0 and 32767 W; the time window is positive; and the raw
    value returned is the content of register 0x610. *)
Theorem X13_decoded_limits_bounded
    (s s' : hw) (pl1_w pl2_w tau : Q) (val : Z) :
  Gui.decode_pls s = (Ok (pl1_w, pl2_w, tau, val), s') ->
  0 <= pl1_w <= 32767 /\ 0 <= pl2_w <= 32767 /\ 0 < tau /\
  regs s !! 0x610%Z = Some val /\ regs s' = regs s.
Proof.
  rewrite decode_pls_eq.
  destruct (probe s 0x606) as [u |] eqn:Pu; [| discriminate].
  cbv zeta. destruct (probe _ 0x610) as [v |] eqn:Pv; [| discriminate].
  intros H. injection H as <- <- <- <- <-.
  apply probe_Some in Pv. simpl in Pv.
  pose proof (inv_pow2_bounds _ (nibble_nonneg u)) as [Hlo Hhi].
  fold (power_unit_of u) in Hlo, Hhi.
  assert (Hfield : forall h, 0 <= float (Z.land h 0x7FFF) <= 32767).
  { intros h. unfold float.
    assert (B : (0 <= Z.land h 0x7FFF <= 32767)%Z).
    { pose proof (Z.land_ones h 15 ltac:(lia)) as E.
      change (Z.ones 15) with 0x7FFF%Z in E. rewrite E.
      pose proof (Z.mod_pos_bound h (2 ^ 15) ltac:(lia)). lia. }
    split.
    - change 0 with (inject_Z 0). rewrite <- Zle_Qle. lia.
    - change 32767 with (inject_Z 32767). rewrite <- Zle_Qle. lia. }
  assert (Hprod : forall k, 0 <= k <= 32767 ->
                    0 <= mul k (power_unit_of u) <= 32767).
  { intros k [K0 K1]. unfold mul. split.
    - apply Qmult_le_0_compat; [exact K0 |].
      apply Qle_trans with (1 # 32768); [discriminate | exact Hlo].
    - apply Qle_trans with (k * 1).
      + rewrite !(Qmult_comm k). apply Qmult_le_compat_r; assumption.
      + rewrite Qmult_1_r. exact K1. }
  split; [apply Hprod, Hfield |]. split; [apply Hprod, Hfield |].
  split; [| split; [exact Pv | reflexivity]].
  unfold mul. apply Qmult_lt_0_compat.
  - unfold time_unit_4.
    pose proof (inv_pow2_bounds _ (nibble_nonneg (Z.shiftr u 4))) as [H _].
    eapply Qlt_le_trans; [| exact H]. reflexivity.
  - apply pow2_float_pos.
    change 0x7F%Z with (Z.ones 7). rewrite Z.land_ones by lia.
    apply Z.mod_pos_bound. lia.
Qed.

Lemma X13_witness :
  0 <= inject_Z 0 * (1 # 8) <= 32767 /\
  0 <= inject_Z 0 * (1 # 8) <= 32767 /\
  0 < 1 * inject_Z (2 ^ 110) /\
  regs reference_hw !! 0x610%Z = Some 0x8000000000DD8000%Z /\
  regs (snd (Gui.decode_pls reference_hw)) = regs reference_hw.
Proof.
  apply (X13_decoded_limits_bounded reference_hw
           (snd (Gui.decode_pls reference_hw))
           (inject_Z 0 * (1 # 8)) (inject_Z 0 * (1 # 8))
           (1 * inject_Z (2 ^ 110)) 0x8000000000DD8000).
  vm_compute. reflexivity.
Defined.

Lemma half_watt_steps (m u : Z) :
  (1 <= Z.land u 0xF)%Z ->
  m # 2 == inject_Z (m * 2 ^ (Z.land u 0xF - 1)) * power_unit_of u.
Proof.
  intros Hp. unfold power_unit_of, float.
  replace (2 ^ Z.land u 0xF)%Z with (2 * 2 ^ (Z.land u 0xF - 1))%Z.
  - assert (Hq : ~ inject_Z (2 ^ (Z.land u 0xF - 1)) == 0)
      by (apply (pow2_float_nonzero (Z.land u 0xF - 1)); lia).
    assert (Hm : m # 2 == inject_Z m * (1 # 2))
      by (unfold Qeq, Qmult, inject_Z; simpl; lia).
    rewrite Hm, !inject_Z_mult. field. exact Hq.
  - rewrite <- Z.pow_succ_r by lia. f_equal. lia.
Qed.

Lemma half_watt_steps_range (m u : Z) :
  (0 <= m <= 90)%Z -> (1 <= Z.land u 0xF <= 9)%Z ->
  (0 <= m * 2 ^ (Z.land u 0xF - 1) <= 0x7FFF)%Z.
Proof.
  intros Hm Hp.
  assert (H : (1 <= 2 ^ (Z.land u 0xF - 1) <= 256)%Z).
  { split.
    - change 1%Z with (2 ^ 0)%Z. apply Z.pow_le_mono_r; lia.
    - change 256%Z with (2 ^ 8)%Z. apply Z.pow_le_mono_r; lia. }
  nia.
Qed.

(** Every preset of the catalogue is found under its own name, and its
    wattages are whole numbers of half watts, 45 W at most. *)
Lemma catalogue_entry (n : string) (p1 p2 : Q) :
  In (n, p1, p2) Gui.PROFILES ->
  find (fun p => String.eqb (fst (fst p)) n) Gui.PROFILES = Some (n, p1, p2) /\
  exists m1 m2,
    (0 <= m1 <= 90)%Z /\ (0 <= m2 <= 90)%Z /\ p1 == m1 # 2 /\ p2 == m2 # 2.
Proof.
  intros Hin. simpl in Hin.
  repeat (destruct Hin as [E | Hin];
          [injection E as <- <- <-; split; [reflexivity |] |]);
    [ exists 24%Z, 40%Z | exists 40%Z, 56%Z | exists 46%Z, 64%Z
    | exists 55%Z, 80%Z | exists 60%Z, 90%Z | destruct Hin ];
    repeat split; try reflexivity; discriminate.
Qed.

Lemma decoded_after_rmw (u v k1 k2 : Z) (pl1 pl2 : Q) :
  (0 <= k1 <= 0x7FFF)%Z ->
  (0 <= k2 <= 0x7FFF)%Z ->
  pl1 == inject_Z k1 * power_unit_of u ->
  pl2 == inject_Z k2 * power_unit_of u ->
  fst (fst (fst (decoded u (rmw v (round (pl1 / power_unit_of u))
                                  (round (pl2 / power_unit_of u)))))) == pl1 /\
  snd (fst (fst (decoded u (rmw v (round (pl1 / power_unit_of u))
                                  (round (pl2 / power_unit_of u)))))) == pl2.
Proof.
  intros Hk1 Hk2 E1 E2. unfold decoded. simpl fst. simpl snd.
  rewrite (round_multiple k1 pl1) by (apply power_unit_of_nonzero || exact E1).
  rewrite (round_multiple k2 pl2) by (apply power_unit_of_nonzero || exact E2).
  rewrite rmw_limit_1, rmw_limit_2 by assumption.
  unfold mul, float. split; symmetry; assumption.
Qed.

(** X14: on a machine whose tools work and whose power exponent is
    between 1 and 9, every preset of the catalogue is applied without
    loss: [apply_profile] called with the preset's name ends by showing,
    in the label, exactly the two wattages of the preset. *)
Theorem X14_catalogue_presets_are_shown_exactly
    (s : hw) (u v : Z) (n : string) (p1 p2 : Q) :
  In (n, p1, p2) Gui.PROFILES ->
  faults s = [] ->
  regs s !! 0x606%Z = Some u ->
  regs s !! 0x610%Z = Some v ->
  (1 <= Z.land u 0xF <= 9)%Z ->
  exists s' pl1_w pl2_w tau,
    Gui.apply_profile n s = (Ok tt, s') /\
    ui s' = ui s ++ [CurrentLabel pl1_w pl2_w tau] /\
    pl1_w == p1 /\ pl2_w == p2.
Proof.
  intros Hin Hf Hu Hv Hp.
  destruct (catalogue_entry n p1 p2 Hin)
    as [Hfind (m1 & m2 & Hm1 & Hm2 & E1 & E2)].
  eexists. eexists. eexists. eexists. split.
  - rewrite (apply_profile_found n n p1 p2 s Hfind).
    rewrite (apply_profile_rmw_quiet p1 p2 s u v Hf Hu Hv). cbv zeta.
    apply update_current_label_quiet; simpl.
    + reflexivity.
    + rewrite lookup_insert_ne by discriminate. exact Hu.
    + apply lookup_insert_eq.
  - split; [reflexivity |].
    apply (decoded_after_rmw u v (m1 * 2 ^ (Z.land u 0xF - 1))
             (m2 * 2 ^ (Z.land u 0xF - 1))).
    + apply half_watt_steps_range; assumption.
    + apply half_watt_steps_range; assumption.
    + rewrite E1. apply half_watt_steps. lia.
    + rewrite E2. apply half_watt_steps. lia.
Qed.

Lemma X14_witness :
  exists s' pl1_w pl2_w tau,
    Gui.apply_profile "Full" reference_hw = (Ok tt, s') /\
    ui s' = ui reference_hw ++ [CurrentLabel pl1_w pl2_w tau] /\
    pl1_w == 55 # 2 /\ pl2_w == 40.
Proof.
  apply (X14_catalogue_presets_are_shown_exactly reference_hw 0xA0E03
           0x8000000000DD8000 "Full" (55 # 2) 40).
  - simpl. right. right. right. left. reflexivity.
  - reflexivity.
  - reflexivity.
  - reflexivity.
  - split; discriminate.
Defined.

Ltac handler_outcome :=
  eexists; eexists;
  split; [reflexivity |];
  simpl;
  split; [reflexivity |];
  split;
  [ intros msr Hne; try reflexivity; now apply lookup_insert_ne
  | intros c E;
    first [ discriminate E
          | injection E as <-; split; [discriminate | reflexivity] ] ].

(** X15: for a name of the catalogue [apply_profile] shows exactly one
    thing, whatever the tools do: the refreshed label or one error box.
    No register other than 0x610 ever changes; and when the box is the
    one of a failed apply, the cause is not a division by zero and every
    register is as it was. *)
Theorem X15_apply_profile_failure_changes_nothing
    (name n : string) (pl1 pl2 : Q) (s : hw) :
  find (fun p => String.eqb (fst (fst p)) name) Gui.PROFILES =
    Some (n, pl1, pl2) ->
  exists s' shown_event,
    Gui.apply_profile name s = (Ok tt, s') /\
    ui s' = ui s ++ [shown_event] /\
    (forall msr, msr <> 0x610%Z -> regs s' !! msr = regs s !! msr) /\
    (forall cause, shown_event = ErrorBox "Error applying profile" cause ->
       cause <> ZeroDivisionError /\ regs s' = regs s).
Proof.
  intros Hfind.
  rewrite (apply_profile_found name n pl1 pl2 s Hfind).
  rewrite apply_profile_rmw_eq.
  destruct (probe s 0x606) as [u |]; cbv zeta; [| handler_outcome].
  destruct (probe _ 0x610) as [v |]; [| handler_outcome].
  destruct (probe _ 0x606) as [u' |]; [| handler_outcome].
  destruct (probe _ 0x610) as [w |]; [| handler_outcome].
  rewrite update_current_label_eq.
  destruct (probe _ 0x606) as [u'' |]; cbv zeta; [| handler_outcome].
  destruct (probe _ 0x610) as [v'' |]; handler_outcome.
Qed.

Lemma X15_witness :
  exists s' shown_event,
    Gui.apply_profile "Sport" flaky_hw = (Ok tt, s') /\
    ui s' = ui flaky_hw ++ [shown_event] /\
    (forall msr, msr <> 0x610%Z -> regs s' !! msr = regs flaky_hw !! msr) /\
    (forall cause, shown_event = ErrorBox "Error applying profile" cause ->
       cause <> ZeroDivisionError /\ regs s' = regs flaky_hw).
Proof.
  apply (X15_apply_profile_failure_changes_nothing "Sport" "Sport" 23 32
           flaky_hw).
  reflexivity.
Defined.

End Further.
